(** * AgentDMS admin backend: authentication and project schema

    A shallow embedding of the Django backend under [src/django_backend]:
    - [authentication/services.py]  ([JwtService], [PasswordService]),
    - [authentication/serializers.py] ([UserSerializer.get_permissions]),
    - [authentication/views.py] ([login], [get_current_user],
      [forgot_password], [reset_password]),
    - [projects/models.py], [projects/views.py]
      ([has_permission], [get_projects], [get_project], [create_project],
      [clone_project]),
    - [users/models.py].

    Python values are modelled as follows.  A [str] is a [string] (its UTF-8
    bytes), an [int] and an instant in whole seconds are [Z], a [dict] with
    string keys is a [gmap string _], a [set] of strings is a [gset string],
    a function that may raise returns a [result].  The third-party libraries
    the code calls (PyJWT, bcrypt, the ORM, the paginator, the framework in
    front of the views) are modelled only as far as the calls made by the
    code need them; their cryptographic cores are
    variables of the section. *)

From Stdlib Require Import ZArith List String Ascii Bool Lia.
From stdpp Require Import base option list gmap strings fin_maps fin_sets.

Local Open Scope string_scope.
Local Open Scope Z_scope.
Local Set Warnings "-register-all".

(** ** Python values and exceptions *)

(** Values that [json.dumps] accepts. *)
Inductive json : Type :=
  | JNull
  | JBool (b : bool)
  | JNum (n : Z)
  | JStr (s : string)
  | JArr (items : list json)
  | JObj (members : list (string * json)).

(** The values the token payload dictionary holds before it is encoded:
    JSON values and [datetime] objects (an instant, in seconds since the
    epoch). *)
Inductive pyobj : Type :=
  | PJson (j : json)
  | PDatetime (t : Z).

(** The exception classes the code raises, catches or lets through. *)
Inductive exn : Type :=
  | TypeError (msg : string)
  | ValueError (msg : string)
  | ExpiredSignatureError
  | InvalidTokenError (msg : string)
  | DoesNotExist
  | MultipleObjectsReturned
  | Http404
  | DatabaseError (msg : string).

(** The outcome of a call: a returned value or a raised exception. *)
Inductive result (A : Type) : Type :=
  | Return (a : A)
  | Raise (e : exn).
Arguments Return {A} a.
Arguments Raise {A} e.

#[global] Instance result_ret : MRet result := λ A a, Return a.
#[global] Instance result_bind : MBind result := λ A B k r,
  match r with
  | Return a => k a
  | Raise e => Raise e
  end.

(** [timedelta(hours=24)] in seconds. *)
Definition hours24 : Z := 24 * 3600.

(** ** settings *)

Record Settings := {
  JWT_SECRET_KEY : string;
  JWT_ISSUER : string;
  JWT_AUDIENCE : string;
  DEBUG : bool
}.

(** ** PyJWT, as far as [JwtService] uses it

    A compact JWS string is represented by what PyJWT reads from it: the
    algorithm of its header, its payload object and its signature; a string
    that does not split into three well-formed segments is [Malformed]. *)
Inductive token : Type :=
  | Compact (alg : string) (payload : gmap string json) (signature : string)
  | Malformed (raw : string).

(** The claims [jwt.encode] converts from [datetime] to a number. *)
Definition time_claim (k : string) : bool :=
  bool_decide (k = "exp") || bool_decide (k = "iat") || bool_decide (k = "nbf").

Definition convert_time_claim (k : string) (v : pyobj) : option pyobj :=
  Some match v with
       | PDatetime t => if time_claim k then PJson (JNum t) else v
       | PJson _ => v
       end.

Definition json_serializable (v : pyobj) : bool :=
  match v with PJson _ => true | PDatetime _ => false end.

Definition to_json (v : pyobj) : json :=
  match v with PJson j => j | PDatetime t => JNum t end.

Definition all_serializable (m : gmap string pyobj) : bool :=
  forallb (λ kv, json_serializable kv.2) (map_to_list m).

(** Python's truth value of a decoded JSON value. *)
Definition truthy (j : json) : bool :=
  match j with
  | JNull => false
  | JBool b => b
  | JNum n => negb (n =? 0)
  | JStr s => negb (String.eqb s "")
  | JArr items => match items with [] => false | _ :: _ => true end
  | JObj members => match members with [] => false | _ :: _ => true end
  end.

(** [_validate_aud] for an expected audience that is a string: a claim
    that is false in Python's sense counts as missing; otherwise the claim
    is a string or a list of strings that contains the expected audience. *)
Definition aud_matches (audience : string) (claim : json) : bool :=
  truthy claim
  && match claim with
     | JStr s => String.eqb audience s
     | JArr items =>
         forallb (λ j, match j with JStr _ => true | _ => false end) items
         && existsb (λ j, match j with JStr s => String.eqb audience s | _ => false end) items
     | _ => false
     end.

(** [_validate_sub] and [_validate_jti]: the claim, when present, is a
    string. *)
Definition string_claim (claim : option json) : bool :=
  match claim with
  | None | Some (JStr _) => true
  | Some _ => false
  end.

(** [needle in s] for two strings. *)
Definition contains (needle s : string) : bool :=
  match String.index 0 needle s with Some _ => true | None => false end.

(** [HMACAlgorithm.prepare_key] refuses ([InvalidKeyError]) a key in which
    it finds a PEM block or an SSH key; the signing and the verification
    below are those of a key it accepts.  A key that holds none of the marks
    it searches for (the [BEGIN] of a PEM armour, the name of an SSH key
    format, the suffix of an SSH certificate type) is accepted. *)
Definition symmetric_key (key : string) : bool :=
  negb (contains "BEGIN " key)
  && forallb (λ mark, negb (contains mark key))
       [ "ssh-ed25519"; "ssh-rsa"; "ssh-dss";
         "ecdsa-sha2-nistp256"; "ecdsa-sha2-nistp384"; "ecdsa-sha2-nistp521";
         "-cert-v01@openssh.com" ].

(** ** users/models.py

    The rows are modelled as the object graph the serializer walks:
    a user holds its [user_roles], a user role its [role], a role its
    [role_permissions], a role permission its [permission]. *)

Module Permission.
Record t := { id : Z; name : string }.
End Permission.

Module RolePermission.
Record t := { id : Z; permission : Permission.t }.
End RolePermission.

Module Role.
Record t := { id : Z; name : string; role_permissions : list RolePermission.t }.
End Role.

Module UserRole.
(** [created_at] is kept as the text the serializer renders. *)
Record t := { id : Z; role : Role.t; created_at : string }.
End UserRole.

Module User.
(** [check_password] is the account's Django password check, a method of
    the object. *)
Record t := {
  id : Z;
  username : string;
  email : string;
  password_hash : string;
  check_password : string → bool;
  is_immutable : bool;
  user_roles : list UserRole.t
}.
End User.

(** ** projects/models.py *)

Module Project.
Record t := {
  id : Z;
  name : string;
  description : option string;
  file_name : string;
  is_active : bool;
  is_archived : bool;
  created_at : Z;
  modified_at : Z;
  modified_by : option string
}.
End Project.

Module CustomField.
Record t := {
  id : Z;
  name : string;
  description : option string;
  field_type : string;
  is_required : bool;
  is_default : bool;
  default_value : option string;
  order : Z;
  role_visibility : string;
  user_list_options : option string;
  is_removable : bool;
  project : Z;
  created_at : Z;
  modified_at : Z;
  modified_by : option string
}.
End CustomField.

(** The tables the views read and write, with the sequences that number new
    rows. *)
Record Database := {
  users : list User.t;
  projects : list Project.t;
  custom_fields : list CustomField.t;
  project_seq : Z;
  custom_field_seq : Z
}.

(** The store together with the failure still to come: [fault = Some k]
    means that the [k] next writes succeed and the one after raises. *)
Record World := {
  db : Database;
  fault : option nat
}.

(** A call that may raise and may change the store.  Nothing is rolled back
    when it raises: the views open no transaction. *)
Definition orm (A : Type) : Type := World → result A * World.

Definition orm_return {A} (a : A) : orm A := λ w, (Return a, w).

Definition orm_bind {A B} (m : orm A) (k : A → orm B) : orm B := λ w,
  match m w with
  | (Return a, w') => k a w'
  | (Raise e, w') => (Raise e, w')
  end.

Notation "'do' x <- m ; k" := (orm_bind m (λ x, k))
  (at level 10, x name, m at level 100, k at level 200, only parsing).
Notation "m >> k" := (orm_bind m (λ _, k))
  (at level 61, left associativity, only parsing).

Definition orm_raise {A} (e : exn) : orm A := λ w, (Raise e, w).

(** A read of the store. *)
Definition orm_read {A} (q : Database → result A) : orm A := λ w, (q (db w), w).

(** A write of the store, subject to the pending failure. *)
Definition orm_write {A} (op : Database → A * Database) : orm A := λ w,
  match fault w with
  | Some O => (Raise (DatabaseError "database error"), {| db := db w; fault := None |})
  | Some (S k) => let '(a, d) := op (db w) in (Return a, {| db := d; fault := Some k |})
  | None => let '(a, d) := op (db w) in (Return a, {| db := d; fault := None |})
  end.

(** [for x in xs: body(x)]. *)
Fixpoint for_each {A} (xs : list A) (body : A → orm unit) : orm unit :=
  match xs with
  | [] => orm_return tt
  | x :: rest => body x >> for_each rest body
  end.

(** [str(ex)]. *)
Definition str (ex : exn) : string :=
  match ex with
  | TypeError msg | ValueError msg | InvalidTokenError msg | DatabaseError msg => msg
  | ExpiredSignatureError => "Signature has expired"
  | DoesNotExist => "matching query does not exist."
  | MultipleObjectsReturned => "get() returned more than one row"
  | Http404 => "No Project matches the given query."
  end.

(** ** Requests and responses *)

(** The [Authorization] header, split where the code splits it: its first
    seven characters and the token the rest of it ([auth_header[7:]])
    spells. *)
Record auth_header := {
  first7 : string;
  after7 : token
}.

(** What [serializer.is_valid()] made of the request body. *)
Inductive validated (A : Type) : Type :=
  | Valid (validated_data : A)
  | Invalid (errors : json).
Arguments Valid {A} validated_data.
Arguments Invalid {A} errors.

Record Request (D : Type) := {
  HTTP_AUTHORIZATION : option auth_header;
  data : D
}.
Arguments HTTP_AUTHORIZATION {D} r.
Arguments data {D} r.

Record LoginData := { login_email : string; login_password : string }.
Record ResetPasswordData := { reset_token : string; new_password : string }.
Record ProjectCreateData := {
  create_name : string;
  create_description : option string;
  create_file_name : string
}.

(** The bodies the views answer with. *)
Inductive body : Type :=
  | Message (message : string)
  | Error (error : string)
  | Errors (errors : json)
  | AuthResponse (tok : token) (user : gmap string pyobj) (expires_at : string)
  | ProjectData (project : Project.t) (fields : list CustomField.t)
  | ServerError.

Record Response := { response_data : body; status : Z }.

Definition HTTP_200_OK : Z := 200.
Definition HTTP_201_CREATED : Z := 201.
Definition HTTP_400_BAD_REQUEST : Z := 400.
Definition HTTP_401_UNAUTHORIZED : Z := 401.
Definition HTTP_403_FORBIDDEN : Z := 403.
Definition HTTP_500_INTERNAL_SERVER_ERROR : Z := 500.

(** ** rest_framework: what [@api_view] does before the body

    Before the body of a view runs, [APIView.initial] authenticates the
    request and checks the permission classes in force; a request it
    refuses never reaches the body and is answered with the status and the
    detail of the refusal.  The authentication classes, and the permission
    classes of a view without [@permission_classes], are those of the
    settings, which are not among the sources: what they make of a request
    is an input of the views modelled with it, [get_current_user] and
    [get_project]. *)
Inductive initial : Type :=
  | Proceeds
  | Refused (status_code : Z) (detail : string).

(** The answer of such a view: what its body returns, or the refusal. *)
Inductive answered (A : Type) : Type :=
  | Body (a : A)
  | Denial (status_code : Z) (detail : string).
Arguments Body {A} a.
Arguments Denial {A} status_code detail.

Definition api_view {A} (i : initial) (view : A) : answered A :=
  match i with
  | Proceeds => Body view
  | Refused status_code detail => Denial status_code detail
  end.

(** The readings of [datetime.utcnow()] one [login] call makes: the text
    formatted into a demo role's [created_at], the two instants
    [generate_token] reads, and the text of [expires_at]. *)
Record LoginClock := {
  created_at_text : string;
  t_exp : Z;
  t_iat : Z;
  expires_at_text : string
}.

(** ** bcrypt: the salt as [hashpw] splits it *)

(** The parts of a string between ['$'] characters, empty parts dropped. *)
Fixpoint dollar_parts_aux (s : string) (cur : string) : list string :=
  match s with
  | EmptyString => if String.eqb cur "" then [] else [cur]
  | String c rest =>
      if Ascii.eqb c "$"%char then
        (if String.eqb cur "" then [] else [cur]) ++ dollar_parts_aux rest ""
      else dollar_parts_aux rest (cur +:+ String c EmptyString)
  end.

Definition dollar_parts (s : string) : list string := dollar_parts_aux s "".

(** Python's truth value of a string and [needle in container]. *)
Definition nonempty (s : string) : bool := negb (String.eqb s "").

Definition py_in (needle : string) (container : json) : result bool :=
  match container with
  | JArr items =>
      Return (existsb (λ j, match j with JStr s => String.eqb needle s | _ => false end) items)
  | JStr s =>
      Return (match String.index 0 needle s with Some _ => true | None => false end)
  | JObj members => Return (existsb (λ kv, String.eqb needle kv.1) members)
  | JNull | JBool _ | JNum _ => Raise (TypeError "argument is not iterable")
  end.

(** ** authentication/serializers.py *)

(** [UserSerializer.get_permissions]: the set built by the two loops, and
    the list made of it. *)
Definition get_permissions_set (obj : User.t) : gset string :=
  foldl (λ permissions user_role,
           foldl (λ permissions role_permission,
                    permissions ∪ {[ Permission.name (RolePermission.permission role_permission) ]})
                 permissions
                 (Role.role_permissions (UserRole.role user_role)))
        ∅
        (User.user_roles obj).

Definition get_permissions (obj : User.t) : list string :=
  elements (get_permissions_set obj).

(** [UserRoleSerializer]: id, user_id, role_id, role_name, created_at. *)
Definition UserRoleSerializer_data (obj : User.t) (user_role : UserRole.t) : json :=
  JObj [ ("id", JNum (UserRole.id user_role));
         ("user_id", JNum (User.id obj));
         ("role_id", JNum (Role.id (UserRole.role user_role)));
         ("role_name", JStr (Role.name (UserRole.role user_role)));
         ("created_at", JStr (UserRole.created_at user_role)) ].

(** The six entries every identity dictionary of the code has. *)
Definition identity_dict (id : json) (username email : string) (is_immutable : bool)
    (roles : list json) (permissions : list string) : gmap string json :=
  list_to_map [ ("id", id);
                ("username", JStr username);
                ("email", JStr email);
                ("is_immutable", JBool is_immutable);
                ("roles", JArr roles);
                ("permissions", JArr (JStr <$> permissions)) ].

(** [UserSerializer(obj).data]. *)
Definition UserSerializer_data (obj : User.t) : gmap string json :=
  identity_dict (JNum (User.id obj)) (User.username obj) (User.email obj)
    (User.is_immutable obj)
    (UserRoleSerializer_data obj <$> User.user_roles obj)
    (get_permissions obj).

(** ** The ORM calls of the views *)

(** [Model.objects.get(...)] over the rows that match. *)
Definition objects_get {A} (matching : list A) : result A :=
  match matching with
  | [] => Raise DoesNotExist
  | [row] => Return row
  | _ :: _ :: _ => Raise MultipleObjectsReturned
  end.

Definition User_objects_get (d : Database) (email : string) : result User.t :=
  objects_get (filter (λ u, User.email u = email) (users d)).

Definition Project_objects_get (d : Database) (project_id : Z) : result Project.t :=
  objects_get (filter (λ p, Project.id p = project_id) (projects d)).

(** [get_object_or_404(Project..., id=project_id)]. *)
Definition get_object_or_404 (d : Database) (project_id : Z) : result Project.t :=
  match Project_objects_get d project_id with
  | Raise DoesNotExist => Raise Http404
  | r => r
  end.

(** [project.custom_fields.all()]. *)
Definition custom_fields_all (d : Database) (project_id : Z) : list CustomField.t :=
  filter (λ f, CustomField.project f = project_id) (custom_fields d).

(** The [INSERT] behind [objects.create]: the row goes to the end of its
    table and the sequence that numbered it moves on. *)
Definition insert_project (row : Project.t) (d : Database) : Database :=
  {| users := users d;
     projects := projects d ++ [row];
     custom_fields := custom_fields d;
     project_seq := project_seq d + 1;
     custom_field_seq := custom_field_seq d |}.

Definition insert_custom_field (row : CustomField.t) (d : Database) : Database :=
  {| users := users d;
     projects := projects d;
     custom_fields := custom_fields d ++ [row];
     project_seq := project_seq d;
     custom_field_seq := custom_field_seq d + 1 |}.

(** [Project.objects.create(name=.., description=.., file_name=..)]; the
    other columns take the defaults of the model.  [now] stands for the
    readings of the clock the [auto_now_add] and [auto_now] columns take at
    the [INSERT], which are not told apart here. *)
Definition Project_objects_create (now : Z) (name : string) (description : option string)
    (file_name : string) : orm Project.t :=
  orm_write (λ d,
    let row := {| Project.id := project_seq d;
                  Project.name := name;
                  Project.description := description;
                  Project.file_name := file_name;
                  Project.is_active := true;
                  Project.is_archived := false;
                  Project.created_at := now;
                  Project.modified_at := now;
                  Project.modified_by := None |} in
    (row, insert_project row d)).

(** [CustomField.objects.create(project=.., ...)]; [now] as for
    [Project.objects.create]. *)
Definition CustomField_objects_create (now : Z) (project : Project.t)
    (name : string) (description : option string) (field_type : string)
    (is_required is_default : bool) (default_value : option string) (order : Z)
    (role_visibility : string) (user_list_options : option string)
    (is_removable : bool) : orm CustomField.t :=
  orm_write (λ d,
    let row := {| CustomField.id := custom_field_seq d;
                  CustomField.name := name;
                  CustomField.description := description;
                  CustomField.field_type := field_type;
                  CustomField.is_required := is_required;
                  CustomField.is_default := is_default;
                  CustomField.default_value := default_value;
                  CustomField.order := order;
                  CustomField.role_visibility := role_visibility;
                  CustomField.user_list_options := user_list_options;
                  CustomField.is_removable := is_removable;
                  CustomField.project := Project.id project;
                  CustomField.created_at := now;
                  CustomField.modified_at := now;
                  CustomField.modified_by := None |} in
    (row, insert_custom_field row d)).

(** [project.refresh_from_db()] followed by [ProjectSerializer(project).data]:
    the row as stored and its custom fields. *)
Definition ProjectSerializer_data (project : Project.t) : orm body :=
  orm_read (λ d,
    row ← Project_objects_get d (Project.id project);
    Return (ProjectData row (custom_fields_all d (Project.id row)))).

(** ** projects/views.py: the default fields of [create_project] *)

Record field_data := {
  fd_name : string;
  fd_field_type : string;
  fd_is_required : bool;
  fd_is_default : bool;
  fd_order : Z;
  fd_is_removable : bool
}.

Definition default_fields : list field_data :=
  [ {| fd_name := "Filename"; fd_field_type := "Text"; fd_is_required := true;
       fd_is_default := true; fd_order := 0; fd_is_removable := false |};
    {| fd_name := "Date Created"; fd_field_type := "Date"; fd_is_required := true;
       fd_is_default := true; fd_order := 1; fd_is_removable := false |};
    {| fd_name := "Date Modified"; fd_field_type := "Date"; fd_is_required := true;
       fd_is_default := true; fd_order := 2; fd_is_removable := false |} ].

(** [CustomField.objects.create(project=project, **field_data)]: the columns
    [field_data] leaves out take the defaults of the model. *)
Definition create_default_field (now : Z) (project : Project.t) (fd : field_data)
    : orm unit :=
  do _ <- CustomField_objects_create now project
            (fd_name fd) None (fd_field_type fd) (fd_is_required fd) (fd_is_default fd)
            None (fd_order fd) "all" None (fd_is_removable fd);
  orm_return tt.

(** ** authentication/views.py: reset_password

    The view reads and writes no table; the store goes through unchanged. *)
Definition reset_password (request_data : validated ResetPasswordData) (w : World)
    : Response * World :=
  match request_data with
  | Invalid errors => ({| response_data := Errors errors; status := HTTP_400_BAD_REQUEST |}, w)
  | Valid d =>
      let token := reset_token d in
      let new_password := new_password d in
      if negb (nonempty token) || negb (nonempty new_password) then
        ({| response_data := Message "Invalid reset token or password";
            status := HTTP_400_BAD_REQUEST |}, w)
      else if String.prefix "demo-reset-token-" token then
        ({| response_data := Message "Password has been reset successfully";
            status := HTTP_200_OK |}, w)
      else
        ({| response_data := Message "Invalid or expired reset token";
            status := HTTP_400_BAD_REQUEST |}, w)
  end.

Section AgentDMS.

#[local] Set Default Proof Using "Type".

(** HMAC-SHA256 of the signing input (header algorithm and payload) under a
    key. *)
Variable hmac_sha256 : string → string → gmap string json → string.

(** [jwt.encode(payload, key, algorithm)]: works on a copy of the payload,
    turns [datetime] values of the time claims into numbers, serialises the
    rest as JSON ([TypeError] on a value JSON cannot hold) and signs. *)
Definition jwt_encode (payload : gmap string pyobj) (key alg : string) : result token :=
  let converted := map_imap convert_time_claim payload in
  if all_serializable converted then
    let body := to_json <$> converted in
    Return (Compact alg body (hmac_sha256 key alg body))
  else Raise (TypeError "Object of type datetime is not JSON serializable").

(** A time claim, when present, is read as an integer.  The payloads
    modelled hold whole numbers; a time claim that is no number is refused. *)
Definition numeric_claim (body : gmap string json) (k : string) : result (option Z) :=
  match body !! k with
  | None => Return None
  | Some (JNum n) => Return (Some n)
  | Some _ => Raise (InvalidTokenError "claim must be an integer")
  end.

(** [jwt.decode(token, key, algorithms, audience, issuer)] at the instant
    [now]: structure, algorithm and signature first, then the claims
    [iat], [nbf], [exp], [iss], [aud], [sub] and [jti]. *)
Definition jwt_decode (tok : token) (key : string) (algorithms : list string)
    (audience issuer : string) (now : Z) : result (gmap string json) :=
  match tok with
  | Malformed _ => Raise (InvalidTokenError "Not enough segments")
  | Compact alg body sig =>
      if negb (existsb (String.eqb alg) algorithms) then
        Raise (InvalidTokenError "The specified alg value is not allowed")
      else if negb (String.eqb sig (hmac_sha256 key alg body)) then
        Raise (InvalidTokenError "Signature verification failed")
      else
        iat ← numeric_claim body "iat";
        nbf ← numeric_claim body "nbf";
        exp ← numeric_claim body "exp";
        if match iat with Some t => now <? t | None => false end then
          Raise (InvalidTokenError "The token is not yet valid (iat)")
        else if match nbf with Some t => now <? t | None => false end then
          Raise (InvalidTokenError "The token is not yet valid (nbf)")
        else if match exp with Some t => t <=? now | None => false end then
          Raise ExpiredSignatureError
        else
          match body !! "iss" with
          | None => Raise (InvalidTokenError "Token is missing the iss claim")
          | Some iss =>
              if negb (match iss with JStr s => String.eqb s issuer | _ => false end) then
                Raise (InvalidTokenError "Invalid issuer")
              else
                match body !! "aud" with
                | None => Raise (InvalidTokenError "Token is missing the aud claim")
                | Some aud =>
                    if negb (aud_matches audience aud) then
                      Raise (InvalidTokenError "Audience doesn't match")
                    else if negb (string_claim (body !! "sub")) then
                      Raise (InvalidTokenError "Subject must be a string")
                    else if negb (string_claim (body !! "jti")) then
                      Raise (InvalidTokenError "JWT ID must be a string")
                    else Return body
                end
          end
  end.

(** ** authentication/services.py: JwtService *)

(** [payload.update({'iss': .., 'aud': .., 'exp': .., 'iat': ..})].  The two
    calls of [datetime.utcnow()] are the readings [t_exp] and [t_iat]. *)
Definition update_standard_claims (cfg : Settings) (t_exp t_iat : Z)
    (payload : gmap string pyobj) : gmap string pyobj :=
  <["iat" := PDatetime t_iat]>
    (<["exp" := PDatetime (t_exp + hours24)]>
      (<["aud" := PJson (JStr (JWT_AUDIENCE cfg))]>
        (<["iss" := PJson (JStr (JWT_ISSUER cfg))]> payload))).

(** [JwtService.generate_token(user_data)] for a [dict] argument.  The
    dictionary is updated in place, so the caller's [user_data] holds the
    standard claims afterwards: the second component is that dictionary. *)
Definition generate_token (cfg : Settings) (t_exp t_iat : Z)
    (user_data : gmap string pyobj) : result token * gmap string pyobj :=
  let payload := update_standard_claims cfg t_exp t_iat user_data in
  (jwt_encode payload (JWT_SECRET_KEY cfg) "HS256", payload).

Definition standard_claim (k : string) : bool :=
  bool_decide (k = "exp") || bool_decide (k = "iat")
  || bool_decide (k = "iss") || bool_decide (k = "aud").

(** [JwtService.validate_token(token)]: the decoded payload without the
    standard claims, [None] when PyJWT rejects the token. *)
Definition validate_token (cfg : Settings) (now : Z) (tok : token)
    : option (gmap string json) :=
  match jwt_decode tok (JWT_SECRET_KEY cfg) ["HS256"] (JWT_AUDIENCE cfg) (JWT_ISSUER cfg) now with
  | Return payload =>
      Some (filter (λ kv, standard_claim kv.1 = false) payload)
  | Raise ExpiredSignatureError => None
  | Raise _ => None
  end.

(** ** authentication/services.py: PasswordService *)

(** The bcrypt computation on a salt that has its three parts (version,
    cost, salt with or without a hash behind it): the hash string, or the
    exception bcrypt raises. *)
Variable bcrypt_crypt : string → string → string → string → result string.

(** [bcrypt.hashpw(password, salt)]: a salt that does not split into exactly
    three parts is refused. *)
Definition bcrypt_hashpw (password salt : string) : result string :=
  match dollar_parts salt with
  | [version; cost; rest] => bcrypt_crypt password version cost rest
  | _ => Raise (ValueError "Invalid salt")
  end.

(** [bcrypt.checkpw(password, hashed_password)]: hash again under the salt
    of [hashed_password] and compare. *)
Definition bcrypt_checkpw (password hashed_password : string) : result bool :=
  ret ← bcrypt_hashpw password hashed_password;
  Return (String.eqb ret hashed_password).

(** [PasswordService.hash_password(password)], the salt of
    [bcrypt.gensalt()] given. *)
Definition hash_password (gensalt password : string) : result string :=
  bcrypt_hashpw password gensalt.

(** [PasswordService.verify_password(password, hashed_password)]. *)
Definition verify_password (password hashed_password : string) : result bool :=
  bcrypt_checkpw password hashed_password.

(** ** authentication/views.py: login *)

Definition demo_role (clk : LoginClock) (id role_name : string) : json :=
  JObj [ ("id", JStr id);
         ("user_id", JStr id);
         ("role_id", JStr id);
         ("role_name", JStr role_name);
         ("created_at", JStr (created_at_text clk)) ].

(** The demo credentials, in the order the code tests them. *)
Definition demo_user (clk : LoginClock) (email password : string)
    : option (gmap string json) :=
  if String.eqb email "admin@agentdms.com" && String.eqb password "admin123" then
    Some (identity_dict (JStr "1") "admin" email false
            [demo_role clk "1" "Administrator"] ["workspace.admin"])
  else if String.eqb email "gill.dan2@gmail.com" && String.eqb password "admin123" then
    Some (identity_dict (JStr "2") "gill.dan2" email false
            [demo_role clk "2" "User"] ["document.view"])
  else if String.eqb email "superadmin@agentdms.com" && String.eqb password "sarasa123" then
    Some (identity_dict (JStr "0") "superadmin" email true
            [demo_role clk "0" "Super Admin"]
            ["workspace.admin"; "document.view"; "document.edit";
             "document.delete"; "document.print"; "document.annotate"])
  else None.

(** The answer of a successful login: the token, the dictionary
    [generate_token] has updated, and [expires_at]. *)
Definition token_response (cfg : Settings) (clk : LoginClock)
    (user_data : gmap string json) : result Response :=
  let '(generated, user_data') :=
    generate_token cfg (t_exp clk) (t_iat clk) (PJson <$> user_data) in
  tok ← generated;
  Return {| response_data := AuthResponse tok user_data' (expires_at_text clk);
            status := HTTP_200_OK |}.

(** The value [login] gives [password_match] for a user found: the bcrypt
    check of the custom hash when there is one, Django's check otherwise. *)
Definition password_match (user : User.t) (password : string) : result bool :=
  if nonempty (User.password_hash user)
  then verify_password password (User.password_hash user)
  else Return (User.check_password user password).

(** The inner [try] of [login]: an answer, or the values of [user] and
    [password_match] it leaves. *)
Definition database_authentication (cfg : Settings) (d : Database) (clk : LoginClock)
    (email password : string) : result (Response + option User.t * bool) :=
  match User_objects_get d email with
  | Return user =>
      matched ← password_match user password;
      if matched : bool then
        resp ← token_response cfg clk (UserSerializer_data user);
        Return (inl resp)
      else Return (inr (Some user, matched))
  | Raise DoesNotExist => Return (inr (None, false))
  | Raise ex => Raise ex
  end.

(** The outer [try] of [login]. *)
Definition login_try (cfg : Settings) (d : Database) (clk : LoginClock)
    (email password : string) : result Response :=
  r ← database_authentication cfg d clk email password;
  match r with
  | inl resp => Return resp
  | inr (user, matched) =>
      demo ←
        (if negb (bool_decide (is_Some user)) || negb matched then
           match demo_user clk email password with
           | Some demo_user => resp ← token_response cfg clk demo_user; Return (Some resp)
           | None => Return None
           end
         else Return None);
      match demo with
      | Some resp => Return resp
      | None =>
          let error_message :=
            if bool_decide (is_Some user) then "Incorrect password" else "User not found" in
          let error_message :=
            if negb (DEBUG cfg) then "Invalid email or password" else error_message in
          Return {| response_data := Message error_message;
                    status := HTTP_401_UNAUTHORIZED |}
      end
  end.

Definition login (cfg : Settings) (clk : LoginClock)
    (request_data : validated LoginData) (w : World) : Response * World :=
  match request_data with
  | Invalid errors =>
      ({| response_data := Errors errors; status := HTTP_400_BAD_REQUEST |}, w)
  | Valid d =>
      match login_try cfg (db w) clk (login_email d) (login_password d) with
      | Return resp => (resp, w)
      | Raise _ =>
          ({| response_data := Message "An error occurred during authentication";
              status := HTTP_500_INTERNAL_SERVER_ERROR |}, w)
      end
  end.

(** ** projects/views.py *)

(** [has_permission(request, permission_name)], token validated at [now]. *)
Definition has_permission {D} (cfg : Settings) (now : Z) (request : Request D)
    (permission_name : string) : result bool :=
  match HTTP_AUTHORIZATION request with
  | Some auth_header =>
      if String.eqb (first7 auth_header) "Bearer " then
        let token := after7 auth_header in
        match validate_token cfg now token with
        | Some user_data =>
            if bool_decide (user_data ≠ ∅) then
              match user_data !! "permissions" with
              | Some permissions => py_in permission_name permissions
              | None => Return false
              end
            else Return false
        | None => Return false
        end
      else Return false
  | None => Return false
  end.

Definition access_denied : Response :=
  {| response_data := Error "Access denied. Insufficient permissions.";
     status := HTTP_403_FORBIDDEN |}.

(** What the framework answers when a view raises. *)
Definition unhandled : Response :=
  {| response_data := ServerError; status := HTTP_500_INTERNAL_SERVER_ERROR |}.

(** The [try] block of [create_project]. *)
Definition create_project_try (now : Z) (request_data : validated ProjectCreateData)
    : orm Response :=
  match request_data with
  | Valid d =>
      do project <- Project_objects_create now
                      (create_name d) (create_description d) (create_file_name d);
      do _ <- for_each default_fields (create_default_field now project);
      do data <- ProjectSerializer_data project;
      orm_return {| response_data := data; status := HTTP_201_CREATED |}
  | Invalid errors =>
      orm_return {| response_data := Errors errors; status := HTTP_400_BAD_REQUEST |}
  end.

Definition create_project (cfg : Settings) (now : Z)
    (request : Request (validated ProjectCreateData)) (w : World) : Response * World :=
  match has_permission cfg now request "workspace.admin" with
  | Raise _ => (unhandled, w)
  | Return false => (access_denied, w)
  | Return true =>
      match create_project_try now (data request) w with
      | (Return resp, w') => (resp, w')
      | (Raise ex, w') =>
          ({| response_data := Error ("Error creating project: " +:+ str ex);
              status := HTTP_500_INTERNAL_SERVER_ERROR |}, w')
      end
  end.

(** The copy of one field in the loop of [clone_project]. *)
Definition clone_field (now : Z) (cloned_project : Project.t) (field : CustomField.t)
    : orm unit :=
  do _ <- CustomField_objects_create now cloned_project
            (CustomField.name field)
            (CustomField.description field)
            (CustomField.field_type field)
            (CustomField.is_required field)
            (CustomField.is_default field)
            (CustomField.default_value field)
            (CustomField.order field)
            (CustomField.role_visibility field)
            (CustomField.user_list_options field)
            (CustomField.is_removable field);
  orm_return tt.

(** The [try] block of [clone_project]; the fields of the original are the
    ones fetched with it. *)
Definition clone_project_try (now : Z) (project_id : Z) : orm Response :=
  do original <- orm_read (λ d,
                   original_project ← get_object_or_404 d project_id;
                   Return (original_project, custom_fields_all d project_id));
  let '(original_project, original_fields) := original in
  do cloned_project <- Project_objects_create now
                         (Project.name original_project +:+ " (Copy)")
                         (Project.description original_project)
                         (Project.file_name original_project);
  do _ <- for_each original_fields (clone_field now cloned_project);
  do data <- ProjectSerializer_data cloned_project;
  orm_return {| response_data := data; status := HTTP_201_CREATED |}.

Definition clone_project (cfg : Settings) (now : Z) (request : Request unit)
    (project_id : Z) (w : World) : Response * World :=
  match has_permission cfg now request "workspace.admin" with
  | Raise _ => (unhandled, w)
  | Return false => (access_denied, w)
  | Return true =>
      match clone_project_try now project_id w with
      | (Return resp, w') => (resp, w')
      | (Raise ex, w') =>
          ({| response_data := Error ("Error cloning project: " +:+ str ex);
              status := HTTP_500_INTERNAL_SERVER_ERROR |}, w')
      end
  end.

(** ** authentication/views.py: get_current_user and forgot_password *)

(** The answer of [get_current_user]: a dictionary of claims. *)
Record ClaimsResponse := {
  claims_data : gmap string json;
  claims_status : Z
}.

(** The sample user [get_current_user] falls back to; [created_at] is the
    text of its reading of the clock. *)
Definition sample_user (created_at : string) : gmap string json :=
  identity_dict (JStr "1") "admin" "admin@agentdms.com" false
    [ JObj [ ("id", JStr "1");
             ("user_id", JStr "1");
             ("role_id", JStr "1");
             ("role_name", JStr "Administrator");
             ("created_at", JStr created_at) ] ]
    ["workspace.admin"].

Definition get_current_user {D} (cfg : Settings) (now : Z) (created_at : string)
    (i : initial) (request : Request D) : answered ClaimsResponse :=
  api_view i
    (let fallback := {| claims_data := sample_user created_at;
                        claims_status := HTTP_200_OK |} in
     match HTTP_AUTHORIZATION request with
     | Some auth_header =>
         if String.eqb (first7 auth_header) "Bearer " then
           let token := after7 auth_header in
           match validate_token cfg now token with
           | Some user_data =>
               if bool_decide (user_data ≠ ∅)
               then {| claims_data := user_data; claims_status := HTTP_200_OK |}
               else fallback
           | None => fallback
           end
         else fallback
     | None => fallback
     end).

Record ForgotPasswordData := { forgot_email : string }.

(** [forgot_password]: the lookup only decides what is logged. *)
Definition forgot_password (request_data : validated ForgotPasswordData) (w : World)
    : Response * World :=
  match request_data with
  | Invalid errors =>
      ({| response_data := Errors errors; status := HTTP_400_BAD_REQUEST |}, w)
  | Valid d =>
      match User_objects_get (db w) (forgot_email d) with
      | Return _ | Raise DoesNotExist =>
          ({| response_data :=
                Message "If an account with that email exists, a password reset link has been sent.";
              status := HTTP_200_OK |}, w)
      | Raise _ =>
          ({| response_data := Message "An error occurred while processing your request";
              status := HTTP_500_INTERNAL_SERVER_ERROR |}, w)
      end
  end.

(** ** projects/views.py: get_project and get_projects *)

Definition HTTP_404_NOT_FOUND : Z := 404.

(** [get_project(request, project_id)]: the body does not look at the
    request. *)
Definition get_project {D} (i : initial) (request : Request D) (project_id : Z)
    (w : World) : answered Response * World :=
  (api_view i
     match get_object_or_404 (db w) project_id with
     | Return project =>
         {| response_data :=
              ProjectData project (custom_fields_all (db w) (Project.id project));
            status := HTTP_200_OK |}
     | Raise _ =>
         {| response_data := Error "Project not found"; status := HTTP_404_NOT_FOUND |}
     end, w).

(** An entry of the list [get_projects] answers with: a stored project as
    [ProjectSerializer] shows it, or one of the sample dictionaries of the
    view (their other entries are constants). *)
Inductive project_item : Type :=
  | StoredProject (project : Project.t) (fields : list CustomField.t)
  | SampleProject (id name description : string).

Record Paginated := {
  page_data : list project_item;
  total_count : Z;
  page : Z;
  page_size : Z;
  total_pages : Z
}.

(** What [int(request.GET.get(name, default))] finds: no parameter, one
    that reads as an integer, or one that does not. *)
Inductive query_int : Type :=
  | NoParam
  | IntParam (n : Z)
  | BadParam (raw : string).

Record ProjectsQuery := {
  query_page : query_int;
  query_pageSize : query_int;
  query_includeArchived : option string
}.

(** What the [try] block of [get_projects] may raise. *)
Inductive paging_exn : Type :=
  | IntValueError
  | ZeroDivisionError
  | EmptyPage.

Definition int_param (default : Z) (q : query_int) : paging_exn + Z :=
  match q with
  | NoParam => inr default
  | IntParam n => inr n
  | BadParam _ => inl IntValueError
  end.

(** [str.lower()], on the letters A to Z. *)
Definition lower_ascii (c : ascii) : ascii :=
  let n := nat_of_ascii c in
  if (65 <=? n)%nat && (n <=? 90)%nat then ascii_of_nat (n + 32) else c.

Fixpoint lower (s : string) : string :=
  match s with
  | EmptyString => EmptyString
  | String c rest => String (lower_ascii c) (lower rest)
  end.

(** Django's [Paginator] over a list of [count] rows, [per_page] a page:
    [num_pages] is [ceil(hits / per_page)] for [hits = max(1, count)].  The
    quotient is a float: for the counts a table holds (below [2 ^ 53]) its
    ceiling is the ceiling of the exact quotient, unless [per_page] is so
    large that the quotient, at most [2 ^ -1075], rounds to [0.0]. *)
Definition float_underflows (hits per_page : Z) : bool :=
  (0 <? per_page) && (hits * 2 ^ 1075 <=? per_page).

Definition Paginator_num_pages (count per_page : Z) : paging_exn + Z :=
  if per_page =? 0 then inl ZeroDivisionError
  else
    let hits := Z.max 1 count in
    if float_underflows hits per_page then inr 0
    else inr (- ((- hits) / per_page)).

Definition Paginator_validate_number (num_pages number : Z) : paging_exn + Z :=
  if number <? 1 then inl EmptyPage
  else if num_pages <? number then inl EmptyPage
  else inr number.

(** [object_list[bottom:top]]. *)
Definition slice {A} (bottom top : Z) (l : list A) : list A :=
  take (Z.to_nat (top - bottom)) (drop (Z.to_nat bottom) l).

Definition Paginator_page {A} (object_list : list A) (per_page num_pages number : Z)
    : paging_exn + list A :=
  match Paginator_validate_number num_pages number with
  | inl e => inl e
  | inr number =>
      let count := Z.of_nat (length object_list) in
      let bottom := (number - 1) * per_page in
      let top := bottom + per_page in
      let top := if count <=? top then count else top in
      inr (slice bottom top object_list)
  end.

(** [get_page]: a number out of range gives the last page. *)
Definition Paginator_get_page {A} (object_list : list A) (per_page num_pages number : Z)
    : paging_exn + list A :=
  match Paginator_validate_number num_pages number with
  | inr number => Paginator_page object_list per_page num_pages number
  | inl _ => Paginator_page object_list per_page num_pages num_pages
  end.

Definition sample_project_1 : project_item :=
  SampleProject "1" "Sample Project 1" "A sample project for testing".

Definition sample_project_2 : project_item :=
  SampleProject "2" "Sample Project 2" "Another sample project".

(** [Project.objects.all()], filtered when archived projects are not asked
    for. *)
Definition projects_queryset (d : Database) (include_archived : bool) : list Project.t :=
  if include_archived then projects d
  else filter (λ p, Project.is_archived p = false) (projects d).

(** The part of the [try] block of [get_projects] behind the header test. *)
Definition get_projects_try (query : ProjectsQuery) (d : Database)
    : paging_exn + Paginated :=
  match int_param 1 (query_page query) with
  | inl e => inl e
  | inr page =>
  match int_param 10 (query_pageSize query) with
  | inl e => inl e
  | inr page_size =>
      let include_archived :=
        String.eqb (lower (default "false" (query_includeArchived query))) "true" in
      let queryset := projects_queryset d include_archived in
      let total_count := Z.of_nat (length queryset) in
      match Paginator_num_pages total_count page_size with
      | inl e => inl e
      | inr total_pages =>
          let page := if (total_pages <? page) && (0 <? total_pages)
                      then total_pages else page in
          match Paginator_get_page queryset page_size total_pages page with
          | inl e => inl e
          | inr projects_page =>
              inr {| page_data :=
                       (λ p, StoredProject p (custom_fields_all d (Project.id p)))
                         <$> projects_page;
                     total_count := total_count;
                     page := page;
                     page_size := page_size;
                     total_pages := total_pages |}
          end
      end
  end
  end.

(** [get_projects]; every answer has the status 200. *)
Definition get_projects {D} (request : Request D) (query : ProjectsQuery) (w : World)
    : Paginated :=
  if match HTTP_AUTHORIZATION request with
     | Some auth_header => String.eqb (first7 auth_header) "Bearer "
     | None => false
     end
  then
    match get_projects_try query (db w) with
    | inr response_data => response_data
    | inl _ =>
        {| page_data := [sample_project_1];
           total_count := 1; page := 1; page_size := 10; total_pages := 1 |}
    end
  else
    {| page_data := [sample_project_1; sample_project_2];
       total_count := 2; page := 1; page_size := 10; total_pages := 1 |}.

(** ** Specification vocabulary *)

(** The request does not carry the permission: no header, a header that is
    not a bearer header, a token [validate_token] answers [None] for, or
    claims whose permission list is missing or does not hold the name. *)
Inductive lacks_permission {D} (cfg : Settings) (now : Z) (request : Request D)
    (permission_name : string) : Prop :=
  | header_absent :
      HTTP_AUTHORIZATION request = None →
      lacks_permission cfg now request permission_name
  | header_not_bearer h :
      HTTP_AUTHORIZATION request = Some h →
      first7 h ≠ "Bearer " →
      lacks_permission cfg now request permission_name
  | token_invalid h :
      HTTP_AUTHORIZATION request = Some h →
      first7 h = "Bearer " →
      validate_token cfg now (after7 h) = None →
      lacks_permission cfg now request permission_name
  | permissions_absent h user_data :
      HTTP_AUTHORIZATION request = Some h →
      first7 h = "Bearer " →
      validate_token cfg now (after7 h) = Some user_data →
      user_data !! "permissions" = None →
      lacks_permission cfg now request permission_name
  | permission_missing h user_data permissions :
      HTTP_AUTHORIZATION request = Some h →
      first7 h = "Bearer " →
      validate_token cfg now (after7 h) = Some user_data →
      user_data !! "permissions" = Some (JArr permissions) →
      JStr permission_name ∉ permissions →
      lacks_permission cfg now request permission_name.

(** The rows a loop of [CustomField.objects.create] calls leaves: [mk x id]
    is the row made for the element [x] under the identifier [id]. *)
Definition write_field {A} (mk : A → Z → CustomField.t) (x : A) : orm unit :=
  do _ <- orm_write (λ d,
            let row := mk x (custom_field_seq d) in (row, insert_custom_field row d));
  orm_return tt.

Fixpoint insert_fields {A} (mk : A → Z → CustomField.t) (xs : list A) (d : Database)
    : Database :=
  match xs with
  | [] => d
  | x :: rest => insert_fields mk rest (insert_custom_field (mk x (custom_field_seq d)) d)
  end.

Fixpoint rows_from {A} (mk : A → Z → CustomField.t) (xs : list A) (start : Z)
    : list CustomField.t :=
  match xs with
  | [] => []
  | x :: rest => mk x start :: rows_from mk rest (start + 1)
  end.

(** The copy [clone_project] makes of a field, and the row [create_project]
    makes of a default field. *)
Definition cloned_field (now project_id : Z) (field : CustomField.t) (id : Z)
    : CustomField.t :=
  {| CustomField.id := id;
     CustomField.name := CustomField.name field;
     CustomField.description := CustomField.description field;
     CustomField.field_type := CustomField.field_type field;
     CustomField.is_required := CustomField.is_required field;
     CustomField.is_default := CustomField.is_default field;
     CustomField.default_value := CustomField.default_value field;
     CustomField.order := CustomField.order field;
     CustomField.role_visibility := CustomField.role_visibility field;
     CustomField.user_list_options := CustomField.user_list_options field;
     CustomField.is_removable := CustomField.is_removable field;
     CustomField.project := project_id;
     CustomField.created_at := now;
     CustomField.modified_at := now;
     CustomField.modified_by := None |}.

Definition default_field (now project_id : Z) (fd : field_data) (id : Z)
    : CustomField.t :=
  {| CustomField.id := id;
     CustomField.name := fd_name fd;
     CustomField.description := None;
     CustomField.field_type := fd_field_type fd;
     CustomField.is_required := fd_is_required fd;
     CustomField.is_default := fd_is_default fd;
     CustomField.default_value := None;
     CustomField.order := fd_order fd;
     CustomField.role_visibility := "all";
     CustomField.user_list_options := None;
     CustomField.is_removable := fd_is_removable fd;
     CustomField.project := project_id;
     CustomField.created_at := now;
     CustomField.modified_at := now;
     CustomField.modified_by := None |}.

(** Two fields with the same definition: every attribute but the identity,
    the owning project and the audit columns. *)
Definition same_definition (f f' : CustomField.t) : Prop :=
  CustomField.name f' = CustomField.name f
  ∧ CustomField.description f' = CustomField.description f
  ∧ CustomField.field_type f' = CustomField.field_type f
  ∧ CustomField.is_required f' = CustomField.is_required f
  ∧ CustomField.is_default f' = CustomField.is_default f
  ∧ CustomField.default_value f' = CustomField.default_value f
  ∧ CustomField.order f' = CustomField.order f
  ∧ CustomField.role_visibility f' = CustomField.role_visibility f
  ∧ CustomField.user_list_options f' = CustomField.user_list_options f
  ∧ CustomField.is_removable f' = CustomField.is_removable f.

(** What the database guarantees of its keys: the project sequence is ahead
    of every project identifier, used or referred to. *)
Definition db_consistent (d : Database) : Prop :=
  Forall (λ p, Project.id p < project_seq d) (projects d)
  ∧ Forall (λ f, CustomField.project f < project_seq d) (custom_fields d).

(** No failure is due within the next [n] writes. *)
Definition survives (n : nat) (f : option nat) : Prop :=
  match f with
  | None => True
  | Some k => (n ≤ k)%nat
  end.

Definition fault_after (n : nat) (f : option nat) : option nat :=
  match f with
  | None => None
  | Some k => Some (k - n)%nat
  end.

(** What the serialized default fields show: name, type, order, and the
    three flags. *)
Definition field_summary (f : CustomField.t) : string * string * Z * bool * bool * bool :=
  (CustomField.name f, CustomField.field_type f, CustomField.order f,
   CustomField.is_required f, CustomField.is_default f, CustomField.is_removable f).

(** [p] is granted to [obj]: some role permission of some role of the user
    names it. *)
Definition granted (obj : User.t) (p : string) : Prop :=
  ∃ user_role role_permission,
    user_role ∈ User.user_roles obj
    ∧ role_permission ∈ Role.role_permissions (UserRole.role user_role)
    ∧ Permission.name (RolePermission.permission role_permission) = p.

(** The same grants, traversed in another order: the user roles permuted,
    and the role permissions of each role permuted. *)
Definition reordered (obj obj' : User.t) : Prop :=
  ∃ urs, User.user_roles obj ≡ₚ urs
    ∧ Forall2 (λ ur ur', Role.role_permissions (UserRole.role ur)
                          ≡ₚ Role.role_permissions (UserRole.role ur'))
              urs (User.user_roles obj').

(** The payload of the token [generate_token] issues for [claims]. *)
Definition issued_body (cfg : Settings) (t_exp t_iat : Z) (claims : gmap string json)
    : gmap string json :=
  <["iat" := JNum t_iat]>
    (<["exp" := JNum (t_exp + hours24)]>
      (<["aud" := JStr (JWT_AUDIENCE cfg)]>
        (<["iss" := JStr (JWT_ISSUER cfg)]> claims))).

(** The claims of the hardcoded superadmin. *)
Definition superadmin_claims (clk : LoginClock) : gmap string json :=
  identity_dict (JStr "0") "superadmin" "superadmin@agentdms.com" true
    [demo_role clk "0" "Super Admin"]
    ["workspace.admin"; "document.view"; "document.edit";
     "document.delete"; "document.print"; "document.annotate"].

(** The project row [clone_project] creates. *)
Definition cloned_project_row (now : Z) (d : Database) (original : Project.t) : Project.t :=
  {| Project.id := project_seq d;
     Project.name := Project.name original +:+ " (Copy)";
     Project.description := Project.description original;
     Project.file_name := Project.file_name original;
     Project.is_active := true;
     Project.is_archived := false;
     Project.created_at := now;
     Project.modified_at := now;
     Project.modified_by := None |}.

(** The project row [create_project] saves. *)
Definition created_project_row (now : Z) (d : Database) (data : ProjectCreateData)
    : Project.t :=
  {| Project.id := project_seq d;
     Project.name := create_name data;
     Project.description := create_description data;
     Project.file_name := create_file_name data;
     Project.is_active := true;
     Project.is_archived := false;
     Project.created_at := now;
     Project.modified_at := now;
     Project.modified_by := None |}.

Definition default_summaries : list (string * string * Z * bool * bool * bool) :=
  [ ("Filename", "Text", 0, true, true, false);
    ("Date Created", "Date", 1, true, true, false);
    ("Date Modified", "Date", 2, true, true, false) ].

(** ** Example data

    Stand-ins for the cryptographic cores, to run the model: a signing
    function (any function does: a token signed and checked with the same
    function under the same key is accepted) and a bcrypt that gives the
    hash bcrypt gives for the one password hashed in the example data
    (Kk4DQuMMfZL9o under the salt $2b$04$cVWp4XaNU8a4v1uMRum2SO) and
    otherwise keeps the 22 characters of salt and appends the password,
    which is no hash bcrypt gives. *)
Definition toy_hmac (key alg : string) (body : gmap string json) : string :=
  key +:+ "/" +:+ alg.

Definition toy_bcrypt (password version cost rest : string) : result string :=
  let salt := String.substring 0 22 rest in
  Return ("$" +:+ version +:+ "$" +:+ cost +:+ "$" +:+ salt
          +:+ (if String.eqb password "Kk4DQuMMfZL9o"
                  && String.eqb salt "cVWp4XaNU8a4v1uMRum2SO"
               then "026BWLIoQMD/TXg5uZV.0P.uO8m3YEm"
               else password)).

Definition cfg0 : Settings :=
  {| JWT_SECRET_KEY := "secret-key";
     JWT_ISSUER := "AgentDMS";
     JWT_AUDIENCE := "AgentDMS.Client";
     DEBUG := false |}.

Definition clk0 : LoginClock :=
  {| created_at_text := "2025-08-28T19:00:00.000000Z";
     t_exp := 1000;
     t_iat := 1000;
     expires_at_text := "2025-08-29T19:00:00Z" |}.

Definition admin_claims : gmap string json :=
  identity_dict (JStr "1") "admin" "admin@agentdms.com" false [] ["workspace.admin"].

Definition viewer_claims : gmap string json :=
  identity_dict (JStr "2") "gill.dan2" "gill.dan2@gmail.com" false [] ["document.view"].

(** A bearer header with the token issued at instant 1000 for [claims]. *)
Definition bearer (claims : gmap string json) : option auth_header :=
  Some {| first7 := "Bearer ";
          after7 := Compact "HS256" (issued_body cfg0 1000 1000 claims)
                      (toy_hmac (JWT_SECRET_KEY cfg0) "HS256"
                         (issued_body cfg0 1000 1000 claims)) |}.

(** bob's hash is the bcrypt hash of the password Kk4DQuMMfZL9o; carol's
    is no bcrypt hash at all. *)
Definition bob : User.t :=
  {| User.id := 7;
     User.username := "bob";
     User.email := "bob@example.com";
     User.password_hash := "$2b$04$cVWp4XaNU8a4v1uMRum2SO026BWLIoQMD/TXg5uZV.0P.uO8m3YEm";
     User.check_password := λ _, false;
     User.is_immutable := false;
     User.user_roles := [] |}.

Definition carol : User.t :=
  {| User.id := 8;
     User.username := "carol";
     User.email := "carol@example.com";
     User.password_hash := "not-a-hash";
     User.check_password := λ _, false;
     User.is_immutable := false;
     User.user_roles := [] |}.

Definition alpha : Project.t :=
  {| Project.id := 1;
     Project.name := "Alpha";
     Project.description := Some "First project";
     Project.file_name := "DefaultFilename";
     Project.is_active := true;
     Project.is_archived := false;
     Project.created_at := 500;
     Project.modified_at := 500;
     Project.modified_by := None |}.

Definition alpha_filename : CustomField.t :=
  {| CustomField.id := 1;
     CustomField.name := "Filename";
     CustomField.description := None;
     CustomField.field_type := "Text";
     CustomField.is_required := true;
     CustomField.is_default := true;
     CustomField.default_value := None;
     CustomField.order := 0;
     CustomField.role_visibility := "all";
     CustomField.user_list_options := None;
     CustomField.is_removable := false;
     CustomField.project := 1;
     CustomField.created_at := 500;
     CustomField.modified_at := 500;
     CustomField.modified_by := None |}.

Definition alpha_invoice : CustomField.t :=
  {| CustomField.id := 2;
     CustomField.name := "Invoice No";
     CustomField.description := Some "Number of the invoice";
     CustomField.field_type := "Number";
     CustomField.is_required := false;
     CustomField.is_default := false;
     CustomField.default_value := Some "0";
     CustomField.order := 3;
     CustomField.role_visibility := "[1, 2]";
     CustomField.user_list_options := None;
     CustomField.is_removable := true;
     CustomField.project := 1;
     CustomField.created_at := 600;
     CustomField.modified_at := 600;
     CustomField.modified_by := Some "admin" |}.

Definition db0 : Database :=
  {| users := [bob; carol];
     projects := [alpha];
     custom_fields := [alpha_filename; alpha_invoice];
     project_seq := 2;
     custom_field_seq := 3 |}.

(** A store in which superadmin@agentdms.com is a stored account, whose
    hash is no bcrypt hash. *)
Definition stored_superadmin : User.t :=
  {| User.id := 9;
     User.username := "superadmin";
     User.email := "superadmin@agentdms.com";
     User.password_hash := "not-a-hash";
     User.check_password := λ _, false;
     User.is_immutable := true;
     User.user_roles := [] |}.

Definition db_superadmin : Database :=
  {| users := [bob; carol; stored_superadmin];
     projects := [alpha];
     custom_fields := [alpha_filename; alpha_invoice];
     project_seq := 2;
     custom_field_seq := 3 |}.

Definition admin_request {D} (d : D) : Request D :=
  {| HTTP_AUTHORIZATION := bearer admin_claims; data := d |}.

Definition beta_data : ProjectCreateData :=
  {| create_name := "Beta"; create_description := None;
     create_file_name := "DefaultFilename" |}.

Definition demo_reset : validated ResetPasswordData :=
  Valid {| reset_token := "demo-reset-token-1"; new_password := "n3w-passw0rd" |}.

(** The store after a clone of Alpha whose third write fails. *)
Definition alpha_copy : Project.t :=
  {| Project.id := 2;
     Project.name := "Alpha (Copy)";
     Project.description := Some "First project";
     Project.file_name := "DefaultFilename";
     Project.is_active := true;
     Project.is_archived := false;
     Project.created_at := 2000;
     Project.modified_at := 2000;
     Project.modified_by := None |}.

Definition db0_after_failed_clone : Database :=
  {| users := [bob; carol];
     projects := [alpha; alpha_copy];
     custom_fields := [alpha_filename; alpha_invoice;
                       cloned_field 2000 2 alpha_filename 3];
     project_seq := 3;
     custom_field_seq := 4 |}.

(** The store after a [create_project] whose second write fails. *)
Definition beta : Project.t :=
  {| Project.id := 2;
     Project.name := "Beta";
     Project.description := None;
     Project.file_name := "DefaultFilename";
     Project.is_active := true;
     Project.is_archived := false;
     Project.created_at := 2000;
     Project.modified_at := 2000;
     Project.modified_by := None |}.

Definition db0_after_failed_create : Database :=
  {| users := [bob; carol];
     projects := [alpha; beta];
     custom_fields := [alpha_filename; alpha_invoice];
     project_seq := 3;
     custom_field_seq := 3 |}.


(** The request carries no token [validate_token] accepts: no header, a
    header that is not a bearer header, or a token that is refused. *)
Definition unauthenticated {D} (cfg : Settings) (now : Z) (request : Request D) : Prop :=
  match HTTP_AUTHORIZATION request with
  | None => True
  | Some h => first7 h ≠ "Bearer " ∨ validate_token cfg now (after7 h) = None
  end.

(** [d'] is [d] with rows appended: the users untouched, at most one
    project more, and every custom field added belonging to the project
    numbered by the sequence of [d]. *)
Definition only_appended (d d' : Database) : Prop :=
  users d' = users d
  ∧ ∃ new_projects new_fields,
      projects d' = (projects d ++ new_projects)%list
      ∧ (length new_projects ≤ 1)%nat
      ∧ custom_fields d' = (custom_fields d ++ new_fields)%list
      ∧ Forall (λ f, CustomField.project f = project_seq d) new_fields.

(** The vocabulary of the listing: the entries made of stored projects, a
    query for page [k] of [n] entries, whether the query asks for archived
    projects, the number of pages, and the page served for the number
    asked. *)
Definition serialized_projects (d : Database) (ps : list Project.t) : list project_item :=
  (λ p, StoredProject p (custom_fields_all d (Project.id p))) <$> ps.

Definition projects_query (k n : Z) (include : option string) : ProjectsQuery :=
  {| query_page := IntParam k;
     query_pageSize := IntParam n;
     query_includeArchived := include |}.

Definition wants_archived (include : option string) : bool :=
  String.eqb (lower (default "false" include)) "true".

Definition page_count (count n : Z) : Z := - ((- Z.max 1 count) / n).

Definition served_page (pages k : Z) : Z :=
  if k <? 1 then pages else if pages <? k then pages else k.

Definition not_archived_item (item : project_item) : Prop :=
  match item with
  | StoredProject p _ => Project.is_archived p = false
  | SampleProject _ _ _ => True
  end.

Definition sample_page : Paginated :=
  {| page_data := [sample_project_1];
     total_count := 1; page := 1; page_size := 10; total_pages := 1 |}.



Definition issued (claims : gmap string json) : token :=
  Compact "HS256" (issued_body cfg0 1000 1000 claims)
    (toy_hmac (JWT_SECRET_KEY cfg0) "HS256" (issued_body cfg0 1000 1000 claims)).

Definition garbage_request : Request unit :=
  {| HTTP_AUTHORIZATION := Some {| first7 := "Bearer "; after7 := Malformed "not.a.token" |};
     data := tt |}.

Definition anonymous_request : Request unit :=
  {| HTTP_AUTHORIZATION := None; data := tt |}.

Definition numbered_project (id : Z) (name : string) (archived : bool) : Project.t :=
  {| Project.id := id;
     Project.name := name;
     Project.description := None;
     Project.file_name := "DefaultFilename";
     Project.is_active := true;
     Project.is_archived := archived;
     Project.created_at := 500;
     Project.modified_at := 500;
     Project.modified_by := None |}.

Definition db5 : Database :=
  {| users := [bob; carol];
     projects := [ numbered_project 1 "One" false;
                   numbered_project 2 "Two" false;
                   numbered_project 3 "Three" true;
                   numbered_project 4 "Four" false;
                   numbered_project 5 "Five" false ];
     custom_fields := [];
     project_seq := 6;
     custom_field_seq := 1 |}.

Definition listed (id : Z) (name : string) : project_item :=
  StoredProject (numbered_project id name false) [].

(** * Properties *)

(** ** Permission aggregation *)

Lemma inner_loop_elem (rps : list RolePermission.t) (acc : gset string) (p : string) :
  p ∈ foldl (λ permissions role_permission,
               permissions ∪ {[ Permission.name (RolePermission.permission role_permission) ]})
            acc rps
  ↔ p ∈ acc ∨ ∃ rp, rp ∈ rps ∧ Permission.name (RolePermission.permission rp) = p.
Proof.
  revert acc. induction rps as [|rp rps IH]; intros acc; simpl.
  - split; [by left | intros [?|(rp & Hin & _)]; [done | by apply elem_of_nil in Hin]].
  - rewrite IH, elem_of_union, elem_of_singleton. split.
    + intros [[? | ->] | (rp' & Hin & Hp)].
      * by left.
      * right. exists rp. split; [apply elem_of_cons; by left | done].
      * right. exists rp'. split; [apply elem_of_cons; by right | done].
    + intros [?|(rp' & Hin & Hp)]; [by left; left |].
      apply elem_of_cons in Hin as [-> | Hin]; [left; right; done |].
      right. by exists rp'.
Qed.

Lemma outer_loop_elem (urs : list UserRole.t) (acc : gset string) (p : string) :
  p ∈ foldl (λ permissions user_role,
               foldl (λ permissions role_permission,
                        permissions ∪ {[ Permission.name (RolePermission.permission role_permission) ]})
                     permissions
                     (Role.role_permissions (UserRole.role user_role)))
            acc urs
  ↔ p ∈ acc ∨ ∃ ur rp, ur ∈ urs ∧ rp ∈ Role.role_permissions (UserRole.role ur)
                        ∧ Permission.name (RolePermission.permission rp) = p.
Proof.
  revert acc. induction urs as [|ur urs IH]; intros acc; simpl.
  - split; [by left | intros [?|(ur & rp & Hin & _)]; [done | by apply elem_of_nil in Hin]].
  - rewrite IH, inner_loop_elem. split.
    + intros [[?|(rp & Hin & Hp)]|(ur' & rp & Hin & Hrp & Hp)].
      * by left.
      * right. exists ur, rp. split; [apply elem_of_cons; by left | done].
      * right. exists ur', rp. split; [apply elem_of_cons; by right | done].
    + intros [?|(ur' & rp & Hin & Hrp & Hp)]; [by left; left |].
      apply elem_of_cons in Hin as [-> | Hin].
      * left; right. by exists rp.
      * right. by exists ur', rp.
Qed.

Lemma elem_of_get_permissions_set (obj : User.t) (p : string) :
  p ∈ get_permissions_set obj ↔ granted obj p.
Proof.
  unfold get_permissions_set, granted. rewrite outer_loop_elem.
  split; [intros [Hin|?]; [by apply not_elem_of_empty in Hin | done] | by right].
Qed.

Lemma reordered_granted (obj obj' : User.t) (p : string) :
  reordered obj obj' → granted obj p ↔ granted obj' p.
Proof.
  intros (urs & Hperm & Hall). split.
  - intros (ur & rp & Hur & Hrp & Hp).
    rewrite Hperm in Hur.
    apply list_elem_of_lookup in Hur as [i Hi].
    destruct (Forall2_lookup_l _ _ _ _ _ Hall Hi) as (ur' & Hi' & Hrps).
    exists ur', rp. split; [by eapply list_elem_of_lookup_2 |].
    split; [by rewrite <- Hrps | done].
  - intros (ur' & rp & Hur & Hrp & Hp).
    apply list_elem_of_lookup in Hur as [i Hi].
    destruct (Forall2_lookup_r _ _ _ _ _ Hall Hi) as (ur & Hi' & Hrps).
    exists ur, rp. split; [rewrite Hperm; by eapply list_elem_of_lookup_2 |].
    split; [by rewrite Hrps | done].
Qed.

(** C6: the permission list in the serialized claims of a user,
    [UserSerializer(U).data["permissions"]], holds exactly the names granted
    through the roles of the user, without duplicates; it is empty when the
    user has no role; and it is the same set, hence the same list up to
    order, however the user roles and the role permissions are ordered. *)
Theorem get_permissions_aggregates (U : User.t) :
  ∃ permissions,
    UserSerializer_data U !! "permissions" = Some (JArr (JStr <$> permissions))
    ∧ (∀ p, p ∈ permissions ↔ granted U p)
    ∧ NoDup permissions
    ∧ (User.user_roles U = [] → permissions = [])
    ∧ (∀ U', reordered U U' →
         ∃ permissions',
           UserSerializer_data U' !! "permissions" = Some (JArr (JStr <$> permissions'))
           ∧ (list_to_set permissions' : gset string) = list_to_set permissions
           ∧ permissions' ≡ₚ permissions).
Proof.
  exists (get_permissions U). split; [reflexivity|].
  unfold get_permissions. split; [|split; [|split]].
  - intros p. rewrite elem_of_elements. apply elem_of_get_permissions_set.
  - apply NoDup_elements.
  - intros Hnil. unfold get_permissions_set. rewrite Hnil. simpl. apply elements_empty.
  - intros U' Hre. exists (get_permissions U'). split; [reflexivity|].
    unfold get_permissions.
    assert (get_permissions_set U' = get_permissions_set U) as ->; [|done].
    apply set_eq. intros p. rewrite !elem_of_get_permissions_set.
    symmetry. by apply reordered_granted.
Qed.

(** ** Token round trip *)

Lemma converted_payload cfg t_exp t_iat (claims : gmap string json) :
  map_imap convert_time_claim (update_standard_claims cfg t_exp t_iat (PJson <$> claims))
  = PJson <$> issued_body cfg t_exp t_iat claims.
Proof.
  apply map_eq. intros k.
  rewrite map_lookup_imap, lookup_fmap.
  unfold update_standard_claims, issued_body.
  rewrite !lookup_insert.
  repeat case_decide; subst; simpl; try done.
  rewrite lookup_fmap. by destruct (claims !! k).
Qed.

Lemma all_serializable_json (m : gmap string json) :
  all_serializable (PJson <$> m) = true.
Proof.
  unfold all_serializable. apply forallb_forall. intros [k v] Hin.
  apply list_elem_of_In, elem_of_map_to_list in Hin.
  rewrite lookup_fmap in Hin.
  destruct (m !! k); simpl in Hin; by simplify_eq.
Qed.

Lemma to_json_PJson (m : gmap string json) : to_json <$> (PJson <$> m) = m.
Proof.
  rewrite <- map_fmap_compose. apply map_eq. intros k.
  rewrite lookup_fmap. by destruct (m !! k).
Qed.

Lemma generate_token_issues cfg t_exp t_iat (claims : gmap string json) :
  (generate_token cfg t_exp t_iat (PJson <$> claims)).1
  = Return (Compact "HS256" (issued_body cfg t_exp t_iat claims)
              (hmac_sha256 (JWT_SECRET_KEY cfg) "HS256"
                 (issued_body cfg t_exp t_iat claims))).
Proof.
  unfold generate_token, jwt_encode. simpl.
  rewrite converted_payload, all_serializable_json, to_json_PJson. done.
Qed.

Lemma standard_claim_cases (k : string) :
  standard_claim k = true → k = "exp" ∨ k = "iat" ∨ k = "iss" ∨ k = "aud".
Proof.
  unfold standard_claim. rewrite !orb_true_iff, !bool_decide_eq_true.
  intros [[[?|?]|?]|?]; auto.
Qed.

Lemma strip_issued_body cfg t_exp t_iat (claims : gmap string json) :
  filter (λ kv, standard_claim kv.1 = false) (issued_body cfg t_exp t_iat claims)
  = filter (λ kv : string * json, standard_claim kv.1 = false) claims.
Proof.
  unfold issued_body.
  rewrite !map_filter_insert_not; [done | intros y; simpl; by vm_compute ..].
Qed.

Lemma identity_dict_standard_free id username email is_immutable roles permissions k :
  standard_claim k = true →
  identity_dict id username email is_immutable roles permissions !! k = None.
Proof.
  intros [->|[->|[->| ->]]]%standard_claim_cases; reflexivity.
Qed.

Lemma strip_identity_dict id username email is_immutable roles permissions :
  filter (λ kv : string * json, standard_claim kv.1 = false)
         (identity_dict id username email is_immutable roles permissions)
  = identity_dict id username email is_immutable roles permissions.
Proof.
  apply map_filter_id. intros k v Hk. simpl.
  destruct (standard_claim k) eqn:Hstd; [|done].
  rewrite identity_dict_standard_free in Hk; done.
Qed.

Lemma aud_matches_own (audience : string) :
  audience ≠ "" → aud_matches audience (JStr audience) = true.
Proof.
  intros Hne. unfold aud_matches. simpl.
  rewrite String.eqb_refl, andb_true_r.
  apply negb_true_iff. by apply String.eqb_neq.
Qed.

(** Within the validity period a token of [generate_token] validates to the
    claims it was issued for, the standard claims stripped, when the
    audience of the settings is not empty. *)
Lemma validate_issued cfg t_exp t_iat now (claims : gmap string json) :
  JWT_AUDIENCE cfg ≠ "" →
  claims !! "nbf" = None →
  string_claim (claims !! "sub") = true →
  string_claim (claims !! "jti") = true →
  t_iat ≤ now < t_exp + hours24 →
  validate_token cfg now
    (Compact "HS256" (issued_body cfg t_exp t_iat claims)
       (hmac_sha256 (JWT_SECRET_KEY cfg) "HS256" (issued_body cfg t_exp t_iat claims)))
  = Some (filter (λ kv, standard_claim kv.1 = false) claims).
Proof.
  intros Haud Hnbf Hsub Hjti [Hiat Hexp].
  unfold validate_token, jwt_decode.
  rewrite String.eqb_refl. simpl.
  unfold numeric_claim.
  assert (issued_body cfg t_exp t_iat claims !! "iat" = Some (JNum t_iat)) as ->
    by (unfold issued_body; by simplify_map_eq).
  assert (issued_body cfg t_exp t_iat claims !! "nbf" = None) as ->
    by (unfold issued_body; by simplify_map_eq).
  assert (issued_body cfg t_exp t_iat claims !! "exp" = Some (JNum (t_exp + hours24))) as ->
    by (unfold issued_body; by simplify_map_eq).
  assert (issued_body cfg t_exp t_iat claims !! "iss" = Some (JStr (JWT_ISSUER cfg))) as ->
    by (unfold issued_body; by simplify_map_eq).
  assert (issued_body cfg t_exp t_iat claims !! "aud" = Some (JStr (JWT_AUDIENCE cfg))) as ->
    by (unfold issued_body; by simplify_map_eq).
  assert (issued_body cfg t_exp t_iat claims !! "sub" = claims !! "sub") as ->
    by (unfold issued_body; by simplify_map_eq).
  assert (issued_body cfg t_exp t_iat claims !! "jti" = claims !! "jti") as ->
    by (unfold issued_body; by simplify_map_eq).
  cbn [mbind result_bind].
  rewrite (proj2 (Z.ltb_ge now t_iat)) by lia.
  rewrite (proj2 (Z.leb_gt (t_exp + hours24) now)) by lia.
  rewrite String.eqb_refl, (aud_matches_own _ Haud), Hsub, Hjti.
  cbn [negb]. by rewrite strip_issued_body.
Qed.

(** Past the expiry, PyJWT refuses the token and [validate_token] answers
    [None], whatever the claims. *)
Lemma validate_expired cfg t_exp t_iat now (claims : gmap string json) :
  t_exp ≤ t_iat →
  t_iat + hours24 < now →
  validate_token cfg now
    (Compact "HS256" (issued_body cfg t_exp t_iat claims)
       (hmac_sha256 (JWT_SECRET_KEY cfg) "HS256" (issued_body cfg t_exp t_iat claims)))
  = None.
Proof.
  intros Hmono Hlate.
  assert (t_iat ≤ now ∧ t_exp + hours24 ≤ now) as [Hiat Hexp]
    by (unfold hours24 in *; lia).
  unfold validate_token, jwt_decode.
  rewrite String.eqb_refl. simpl.
  unfold numeric_claim.
  assert (issued_body cfg t_exp t_iat claims !! "iat" = Some (JNum t_iat)) as ->
    by (unfold issued_body; by simplify_map_eq).
  assert (issued_body cfg t_exp t_iat claims !! "exp" = Some (JNum (t_exp + hours24))) as ->
    by (unfold issued_body; by simplify_map_eq).
  simpl.
  destruct (issued_body cfg t_exp t_iat claims !! "nbf") as [[| | n | | |]|]; simpl; try done.
  - rewrite (proj2 (Z.ltb_ge now t_iat)) by lia.
    destruct (now <? n); [done|].
    rewrite (proj2 (Z.leb_le (t_exp + hours24) now)) by lia. done.
  - rewrite (proj2 (Z.ltb_ge now t_iat)) by lia.
    rewrite (proj2 (Z.leb_le (t_exp + hours24) now)) by lia. done.
Qed.

(** C1: under settings with a signing key that HMAC accepts and an
    audience that is not empty, a token issued for an identity and its
    permissions validates, with the same key, issuer and audience and before
    its expiry, to exactly those claims; validated later than 24 hours after
    it was issued it yields [None].  [t_exp] and [t_iat] are the two
    successive clock readings of [generate_token]. *)
Theorem token_round_trip cfg t_exp t_iat now later
    id username email is_immutable roles permissions :
  symmetric_key (JWT_SECRET_KEY cfg) = true →
  JWT_AUDIENCE cfg ≠ "" →
  t_exp ≤ t_iat →
  t_iat ≤ now < t_exp + hours24 →
  t_iat + hours24 < later →
  let user_data := identity_dict id username email is_immutable roles permissions in
  ∃ tok,
    (generate_token cfg t_exp t_iat (PJson <$> user_data)).1 = Return tok
    ∧ validate_token cfg now tok = Some user_data
    ∧ validate_token cfg later tok = None.
Proof.
  intros _ Haud Hmono Hvalid Hlate user_data.
  eexists. split; [apply generate_token_issues|]. split.
  - rewrite validate_issued; [|done|reflexivity..|done].
    unfold user_data. by rewrite strip_identity_dict.
  - by apply validate_expired.
Qed.

(** ** The permission gate *)

Lemma existsb_JStr (p : string) (items : list json) :
  existsb (λ j, match j with JStr s => String.eqb p s | _ => false end) items = true
  ↔ JStr p ∈ items.
Proof.
  rewrite existsb_exists. split.
  - intros (j & Hin & Hj). apply list_elem_of_In in Hin.
    destruct j; try done. apply String.eqb_eq in Hj. by subst.
  - intros Hin. exists (JStr p). split; [by apply list_elem_of_In|].
    apply String.eqb_refl.
Qed.

Lemma lacks_permission_denied {D} cfg now (request : Request D) permission_name :
  lacks_permission cfg now request permission_name →
  has_permission cfg now request permission_name = Return false.
Proof.
  unfold has_permission.
  intros [H | h H Hb | h H Hb Hv | h user_data H Hb Hv Hp | h user_data ps H Hb Hv Hp Hnin].
  - by rewrite H.
  - rewrite H. apply String.eqb_neq in Hb. by rewrite Hb.
  - rewrite H, Hb, Hv. done.
  - rewrite H, Hb, Hv, Hp. simpl. by case_bool_decide.
  - rewrite H, Hb, Hv, Hp. simpl. case_bool_decide; [|done]. simpl.
    destruct (existsb _ ps) eqn:Hex; [|done].
    by apply existsb_JStr in Hex.
Qed.

(** C5: a request without a bearer token, with a token that does not
    validate, or with a token whose permission list lacks
    ["workspace.admin"] is answered 403 by [clone_project] and by
    [create_project], and the store is left as it was. *)
Theorem forbidden_without_workspace_admin cfg now
    (clone_request : Request unit) (project_id : Z)
    (create_request : Request (validated ProjectCreateData)) (w : World) :
  lacks_permission cfg now clone_request "workspace.admin" →
  lacks_permission cfg now create_request "workspace.admin" →
  clone_project cfg now clone_request project_id w = (access_denied, w)
  ∧ create_project cfg now create_request w = (access_denied, w)
  ∧ status access_denied = HTTP_403_FORBIDDEN.
Proof.
  intros Hclone Hcreate. unfold clone_project, create_project.
  rewrite (lacks_permission_denied _ _ _ _ Hclone).
  rewrite (lacks_permission_denied _ _ _ _ Hcreate).
  done.
Qed.

(** ** login *)

Lemma token_response_returns cfg clk (claims : gmap string json) :
  token_response cfg clk claims
  = Return {| response_data :=
                AuthResponse
                  (Compact "HS256" (issued_body cfg (t_exp clk) (t_iat clk) claims)
                     (hmac_sha256 (JWT_SECRET_KEY cfg) "HS256"
                        (issued_body cfg (t_exp clk) (t_iat clk) claims)))
                  (update_standard_claims cfg (t_exp clk) (t_iat clk) (PJson <$> claims))
                  (expires_at_text clk);
              status := HTTP_200_OK |}.
Proof.
  unfold token_response.
  pose proof (generate_token_issues cfg (t_exp clk) (t_iat clk) claims) as Hgen.
  destruct (generate_token _ _ _ _) as [generated user_data'] eqn:Heq.
  simpl in Hgen. subst generated. simpl.
  unfold generate_token in Heq. by simplify_eq.
Qed.

(** What [login] answers once database authentication has not succeeded
    and the credentials are no demo credentials. *)
Lemma login_try_rejected cfg d clk email password user :
  database_authentication cfg d clk email password = Return (inr (user, false)) →
  demo_user clk email password = None →
  DEBUG cfg = false →
  login_try cfg d clk email password
  = Return {| response_data := Message "Invalid email or password";
              status := HTTP_401_UNAUTHORIZED |}.
Proof.
  intros Hdb Hdemo Hdebug. unfold login_try.
  rewrite Hdb. simpl. rewrite orb_true_r, Hdemo, Hdebug. done.
Qed.

Lemma login_try_demo cfg d clk email password user claims :
  database_authentication cfg d clk email password = Return (inr (user, false)) →
  demo_user clk email password = Some claims →
  login_try cfg d clk email password = token_response cfg clk claims.
Proof.
  intros Hdb Hdemo. unfold login_try.
  rewrite Hdb. simpl. rewrite orb_true_r, Hdemo.
  rewrite token_response_returns. done.
Qed.

Lemma database_authentication_unknown cfg d clk email password :
  User_objects_get d email = Raise DoesNotExist →
  database_authentication cfg d clk email password = Return (inr (None, false)).
Proof. intros H. unfold database_authentication. by rewrite H. Qed.

Lemma database_authentication_wrong cfg d clk email password user :
  User_objects_get d email = Return user →
  password_match user password = Return false →
  database_authentication cfg d clk email password = Return (inr (Some user, false)).
Proof. intros H Hpw. unfold database_authentication. by rewrite H, Hpw. Qed.

Lemma login_not_ok_no_demo cfg clk d w user :
  database_authentication cfg (db w) clk (login_email d) (login_password d)
  = Return (inr (user, false)) →
  status (login cfg clk (Valid d) w).1 ≠ HTTP_200_OK →
  demo_user clk (login_email d) (login_password d) = None.
Proof.
  intros Hdb Hnot.
  destruct (demo_user clk (login_email d) (login_password d)) as [claims|] eqn:Hdemo; [|done].
  exfalso. apply Hnot. unfold login.
  rewrite (login_try_demo _ _ _ _ _ _ _ Hdb Hdemo), token_response_returns. done.
Qed.

Lemma database_authentication_raises cfg d clk email password user ex :
  User_objects_get d email = Return user →
  password_match user password = Raise ex →
  database_authentication cfg d clk email password = Raise ex.
Proof. intros H Hpw. unfold database_authentication. by rewrite H, Hpw. Qed.

Lemma login_check_raises cfg clk w d user ex :
  User_objects_get (db w) (login_email d) = Return user →
  password_match user (login_password d) = Raise ex →
  login cfg clk (Valid d) w
  = ({| response_data := Message "An error occurred during authentication";
        status := HTTP_500_INTERNAL_SERVER_ERROR |}, w).
Proof.
  intros H Hpw. unfold login, login_try.
  by rewrite (database_authentication_raises _ _ _ _ _ _ _ H Hpw).
Qed.

Lemma login_check_accepts cfg clk w d user :
  User_objects_get (db w) (login_email d) = Return user →
  password_match user (login_password d) = Return true →
  status (login cfg clk (Valid d) w).1 = HTTP_200_OK.
Proof.
  intros H Hpw. unfold login, login_try, database_authentication.
  rewrite H, Hpw. cbn [mbind result_bind].
  by rewrite token_response_returns.
Qed.

(** C7, as the code has it: with [DEBUG] off and a signing key HMAC
    accepts, a failing login for an email no user has is answered 401 with
    the one message, and so is a failing login for the email of a user whose
    password check returns false; when the password check of the user
    raises, the answer is the 500 of the handler of [login], which differs.
    A failing login meets no password check that returns true. *)
Theorem login_failure_answers cfg clk w unknown known user :
  symmetric_key (JWT_SECRET_KEY cfg) = true →
  DEBUG cfg = false →
  User_objects_get (db w) (login_email unknown) = Raise DoesNotExist →
  User_objects_get (db w) (login_email known) = Return user →
  status (login cfg clk (Valid unknown) w).1 ≠ HTTP_200_OK →
  status (login cfg clk (Valid known) w).1 ≠ HTTP_200_OK →
  let rejected := {| response_data := Message "Invalid email or password";
                     status := HTTP_401_UNAUTHORIZED |} in
  let failed := {| response_data := Message "An error occurred during authentication";
                   status := HTTP_500_INTERNAL_SERVER_ERROR |} in
  login cfg clk (Valid unknown) w = (rejected, w)
  ∧ (password_match user (login_password known) = Return false →
     login cfg clk (Valid known) w = (rejected, w))
  ∧ (∀ ex, password_match user (login_password known) = Raise ex →
     login cfg clk (Valid known) w = (failed, w) ∧ failed ≠ rejected)
  ∧ password_match user (login_password known) ≠ Return true.
Proof.
  intros _ Hdebug Hnone Hsome Hfail_u Hfail_k rejected failed.
  pose proof (database_authentication_unknown cfg _ clk _ (login_password unknown) Hnone) as Hu.
  pose proof (login_not_ok_no_demo _ _ _ _ _ Hu Hfail_u) as Hdemo_u.
  split; [|split; [|split]].
  - unfold login. by rewrite (login_try_rejected _ _ _ _ _ _ Hu Hdemo_u Hdebug).
  - intros Hpw.
    pose proof (database_authentication_wrong cfg _ clk _ _ _ Hsome Hpw) as Hk.
    pose proof (login_not_ok_no_demo _ _ _ _ _ Hk Hfail_k) as Hdemo_k.
    unfold login. by rewrite (login_try_rejected _ _ _ _ _ _ Hk Hdemo_k Hdebug).
  - intros ex Hpw. split; [|discriminate].
    by apply (login_check_raises _ _ _ _ user ex).
  - intros Hpw. apply Hfail_k. by apply (login_check_accepts _ _ _ _ user).
Qed.

(** C10, as the code has it: under a signing key HMAC accepts, when the
    lookup of superadmin@agentdms.com finds no user, or finds one whose
    password check returns false for sarasa123, [login] answers 200 with a
    token signed under the secret key whose payload has [is_immutable] true
    and exactly the six permissions, and which validates to the superadmin
    claims within its validity period when the audience of the settings is
    not empty.  When the password check of the stored user raises, [login]
    answers 500 and issues no token. *)
Theorem superadmin_login cfg clk w :
  symmetric_key (JWT_SECRET_KEY cfg) = true →
  let superadmin := {| login_email := "superadmin@agentdms.com";
                       login_password := "sarasa123" |} in
  ((User_objects_get (db w) "superadmin@agentdms.com" = Raise DoesNotExist
    ∨ ∃ user, User_objects_get (db w) "superadmin@agentdms.com" = Return user
              ∧ password_match user "sarasa123" = Return false) →
   ∃ body user_data,
     login cfg clk (Valid superadmin) w
     = ({| response_data :=
             AuthResponse
               (Compact "HS256" body (hmac_sha256 (JWT_SECRET_KEY cfg) "HS256" body))
               user_data (expires_at_text clk);
           status := HTTP_200_OK |}, w)
     ∧ body !! "is_immutable" = Some (JBool true)
     ∧ body !! "permissions"
       = Some (JArr [JStr "workspace.admin"; JStr "document.view"; JStr "document.edit";
                     JStr "document.delete"; JStr "document.print";
                     JStr "document.annotate"])
     ∧ ∀ now, JWT_AUDIENCE cfg ≠ "" →
              t_iat clk ≤ now < t_exp clk + hours24 →
              validate_token cfg now
                (Compact "HS256" body (hmac_sha256 (JWT_SECRET_KEY cfg) "HS256" body))
              = Some (superadmin_claims clk))
  ∧ (∀ user ex,
       User_objects_get (db w) "superadmin@agentdms.com" = Return user →
       password_match user "sarasa123" = Raise ex →
       login cfg clk (Valid superadmin) w
       = ({| response_data := Message "An error occurred during authentication";
             status := HTTP_500_INTERNAL_SERVER_ERROR |}, w)).
Proof.
  intros _ superadmin. split.
  - intros Hdb.
    assert (∃ user, database_authentication cfg (db w) clk
                      "superadmin@agentdms.com" "sarasa123"
                    = Return (inr (user, false))) as [user Hauth].
    { destruct Hdb as [Hnone|(user & Hsome & Hpw)].
      - exists None. by apply database_authentication_unknown.
      - exists (Some user). by apply database_authentication_wrong. }
    exists (issued_body cfg (t_exp clk) (t_iat clk) (superadmin_claims clk)).
    exists (update_standard_claims cfg (t_exp clk) (t_iat clk)
              (PJson <$> superadmin_claims clk)).
    split; [|split; [reflexivity|split; [reflexivity|]]].
    + unfold login. simpl.
      rewrite (login_try_demo _ _ _ _ _ _ (superadmin_claims clk) Hauth); [|reflexivity].
      by rewrite token_response_returns.
    + intros now Haud Hvalid.
      rewrite validate_issued; [|done|reflexivity..|done].
      unfold superadmin_claims. by rewrite strip_identity_dict.
  - intros user ex Hsome Hpw. by apply (login_check_raises _ _ _ superadmin user ex).
Qed.

(** ** Password verification *)

Lemma bcrypt_hashpw_malformed password salt :
  length (dollar_parts salt) ≠ 3%nat →
  bcrypt_hashpw password salt = Raise (ValueError "Invalid salt").
Proof.
  unfold bcrypt_hashpw.
  destruct (dollar_parts salt) as [|a [|b [|c [|e l]]]]; simpl; done.
Qed.

(** C8, as the code has it: [verify_password] has no handler of its own.  On
    a hash string that does not split into the three parts of a bcrypt hash
    it raises [ValueError] instead of returning false, and a [login] that
    meets such a stored hash answers 500; it returns a boolean, the
    comparison of the recomputed hash with the stored one, whenever bcrypt
    computes a hash under the stored salt. *)
Theorem verify_password_malformed_raises password hashed_password :
  length (dollar_parts hashed_password) ≠ 3%nat →
  verify_password password hashed_password = Raise (ValueError "Invalid salt")
  ∧ (∀ cfg clk w user email,
       User_objects_get (db w) email = Return user →
       User.password_hash user = hashed_password →
       nonempty hashed_password = true →
       login cfg clk (Valid {| login_email := email; login_password := password |}) w
       = ({| response_data := Message "An error occurred during authentication";
             status := HTTP_500_INTERNAL_SERVER_ERROR |}, w))
  ∧ (∀ other version cost rest hashed,
       dollar_parts other = [version; cost; rest] →
       bcrypt_crypt password version cost rest = Return hashed →
       verify_password password other = Return (String.eqb hashed other)).
Proof.
  intros Hbad. split; [|split].
  - unfold verify_password, bcrypt_checkpw.
    by rewrite bcrypt_hashpw_malformed.
  - intros cfg clk w user email Hget Hhash Hne.
    unfold login, login_try, database_authentication, password_match. simpl.
    rewrite Hget, Hhash, Hne.
    unfold verify_password, bcrypt_checkpw.
    by rewrite bcrypt_hashpw_malformed.
  - intros other version cost rest hashed Hparts Hcrypt.
    unfold verify_password, bcrypt_checkpw, bcrypt_hashpw.
    by rewrite Hparts, Hcrypt.
Qed.

(** ** Password reset *)

(** C9, as the code has it: [reset_password] only looks at the spelling of
    the token.  It answers 200 for every token that starts with
    ["demo-reset-token-"] and 400 with the invalid-token message for any
    other; in both cases the store is unchanged (no hash is stored, no token
    is spent), so the same request gets the same answer again. *)
Theorem reset_password_simulated (request_data : validated ResetPasswordData) (w : World) :
  (reset_password request_data w).2 = w
  ∧ reset_password request_data (reset_password request_data w).2
    = reset_password request_data w
  ∧ (∀ d, request_data = Valid d →
       nonempty (reset_token d) = true →
       nonempty (new_password d) = true →
       (reset_password request_data w).1
       = if String.prefix "demo-reset-token-" (reset_token d)
         then {| response_data := Message "Password has been reset successfully";
                 status := HTTP_200_OK |}
         else {| response_data := Message "Invalid or expired reset token";
                 status := HTTP_400_BAD_REQUEST |}).
Proof.
  assert ((reset_password request_data w).2 = w) as Hsame.
  { unfold reset_password. destruct request_data as [d|errors]; [|done].
    destruct (negb _ || negb _); [done|].
    by destruct (String.prefix _ _). }
  split; [done|]. split; [by rewrite Hsame|].
  intros d -> Htok Hpw. unfold reset_password.
  rewrite Htok, Hpw. simpl.
  by destruct (String.prefix _ _).
Qed.

(** ** The store under the loops of the project views *)

Lemma orm_write_survives {A} (op : Database → A * Database) d f :
  survives 1 f →
  orm_write op {| db := d; fault := f |}
  = (Return (op d).1, {| db := (op d).2; fault := fault_after 1 f |}).
Proof.
  unfold orm_write. simpl. destruct f as [[|k]|]; simpl; intros Hs.
  - lia.
  - destruct (op d). simpl. by rewrite Nat.sub_0_r.
  - by destruct (op d).
Qed.

Lemma orm_write_fails {A} (op : Database → A * Database) d :
  orm_write op {| db := d; fault := Some O |}
  = (Raise (DatabaseError "database error"), {| db := d; fault := None |}).
Proof. done. Qed.

Lemma for_each_survives {A} (mk : A → Z → CustomField.t) body (xs : list A) d f :
  (∀ x, body x = write_field mk x) →
  survives (length xs) f →
  for_each xs body {| db := d; fault := f |}
  = (Return tt, {| db := insert_fields mk xs d; fault := fault_after (length xs) f |}).
Proof.
  intros Hbody. revert d f. induction xs as [|x xs IH]; intros d f Hs.
  - simpl. unfold orm_return. destruct f; simpl; [by rewrite Nat.sub_0_r | done].
  - cbn [for_each insert_fields length]. unfold orm_bind.
    rewrite Hbody. unfold write_field, orm_bind.
    rewrite orm_write_survives by (destruct f; simpl in *; lia).
    cbn [fst snd]. unfold orm_return.
    rewrite IH by (destruct f; simpl in *; lia).
    destruct f; simpl; [|done]. do 3 f_equal. lia.
Qed.

Lemma for_each_fails {A} (mk : A → Z → CustomField.t) body (xs : list A) d j :
  (∀ x, body x = write_field mk x) →
  (j < length xs)%nat →
  for_each xs body {| db := d; fault := Some j |}
  = (Raise (DatabaseError "database error"),
     {| db := insert_fields mk (take j xs) d; fault := None |}).
Proof.
  intros Hbody. revert d j. induction xs as [|x xs IH]; intros d j Hj.
  - simpl in Hj. lia.
  - cbn [for_each length] in *. unfold orm_bind.
    rewrite Hbody. unfold write_field, orm_bind.
    destruct j as [|j].
    + by rewrite orm_write_fails.
    + rewrite orm_write_survives by (simpl; lia).
      cbn [fst snd fault_after]. unfold orm_return.
      replace (S j - 1)%nat with j by lia.
      rewrite IH by lia. done.
Qed.

Lemma insert_fields_tables {A} (mk : A → Z → CustomField.t) (xs : list A) d :
  users (insert_fields mk xs d) = users d
  ∧ projects (insert_fields mk xs d) = projects d
  ∧ project_seq (insert_fields mk xs d) = project_seq d
  ∧ custom_fields (insert_fields mk xs d)
    = (custom_fields d ++ rows_from mk xs (custom_field_seq d))%list.
Proof.
  revert d. induction xs as [|x xs IH]; intros d; simpl.
  - by rewrite app_nil_r.
  - destruct (IH (insert_custom_field (mk x (custom_field_seq d)) d)) as (-> & -> & -> & ->).
    simpl. by rewrite <- app_assoc.
Qed.

Lemma rows_from_length {A} (mk : A → Z → CustomField.t) (xs : list A) start :
  length (rows_from mk xs start) = length xs.
Proof. revert start. induction xs; intros; simpl; [done | by rewrite IHxs]. Qed.

Lemma rows_from_Forall2 {A} (R : A → CustomField.t → Prop)
    (mk : A → Z → CustomField.t) (xs : list A) start :
  (∀ x id, R x (mk x id)) → Forall2 R xs (rows_from mk xs start).
Proof.
  intros HR. revert start. induction xs; intros; simpl; constructor; auto.
Qed.

Lemma rows_from_Forall {A} (P : CustomField.t → Prop)
    (mk : A → Z → CustomField.t) (xs : list A) start :
  (∀ x id, P (mk x id)) → Forall P (rows_from mk xs start).
Proof.
  intros HP. revert start. induction xs; intros; simpl; constructor; auto.
Qed.

Lemma filter_all {A} (P : A → Prop) `{!∀ x, Decision (P x)} (l : list A) :
  Forall P l → filter P l = l.
Proof.
  induction 1 as [|x l Hx _ IH]; [done|].
  rewrite filter_cons_True by done. by rewrite IH.
Qed.

Lemma filter_none {A} (P : A → Prop) `{!∀ x, Decision (P x)} (l : list A) :
  Forall (λ x, ¬ P x) l → filter P l = [].
Proof.
  induction 1 as [|x l Hx _ IH]; [done|].
  rewrite filter_cons_False by done. done.
Qed.

(** The new project is found again, alone under its identifier, and its
    custom fields are the rows just written. *)
Lemma new_project_found {A} (mk : A → Z → CustomField.t) (xs : list A)
    (row : Project.t) d :
  db_consistent d →
  Project.id row = project_seq d →
  Project_objects_get (insert_fields mk xs (insert_project row d)) (Project.id row)
  = Return row.
Proof.
  intros [Hprojects _] Hid. unfold Project_objects_get.
  destruct (insert_fields_tables mk xs (insert_project row d)) as (_ & -> & _ & _).
  simpl. rewrite filter_app.
  rewrite (filter_none _ (projects d)).
  2:{ eapply Forall_impl; [exact Hprojects|]. simpl. intros p Hp. lia. }
  by rewrite filter_cons_True.
Qed.

Lemma new_project_fields {A} (mk : A → Z → CustomField.t) (xs : list A)
    (row : Project.t) d :
  db_consistent d →
  Project.id row = project_seq d →
  (∀ x id, CustomField.project (mk x id) = Project.id row) →
  custom_fields_all (insert_fields mk xs (insert_project row d)) (Project.id row)
  = rows_from mk xs (custom_field_seq d).
Proof.
  intros [_ Hfields] Hid Hmk. unfold custom_fields_all.
  destruct (insert_fields_tables mk xs (insert_project row d)) as (_ & _ & _ & ->).
  simpl. rewrite filter_app.
  rewrite (filter_none _ (custom_fields d)).
  2:{ eapply Forall_impl; [exact Hfields|]. simpl. intros p Hp. lia. }
  rewrite filter_all by (apply rows_from_Forall; intros; by rewrite Hmk).
  done.
Qed.

Lemma serialize_new_project {A} (mk : A → Z → CustomField.t) (xs : list A)
    (row : Project.t) d f :
  db_consistent d →
  Project.id row = project_seq d →
  (∀ x id, CustomField.project (mk x id) = Project.id row) →
  ProjectSerializer_data row
    {| db := insert_fields mk xs (insert_project row d); fault := f |}
  = (Return (ProjectData row (rows_from mk xs (custom_field_seq d))),
     {| db := insert_fields mk xs (insert_project row d); fault := f |}).
Proof.
  intros Hd Hid Hmk.
  unfold ProjectSerializer_data, orm_read. cbn [db].
  rewrite new_project_found by done. simpl.
  rewrite new_project_fields by done. done.
Qed.

Lemma clone_field_writes now cloned_project field :
  clone_field now cloned_project field
  = write_field (cloned_field now (Project.id cloned_project)) field.
Proof. reflexivity. Qed.

Lemma create_default_field_writes now project fd :
  create_default_field now project fd
  = write_field (default_field now (Project.id project)) fd.
Proof. reflexivity. Qed.

(** C2: cloning an existing project [P] that has [N] custom fields, by an
    authorized request and with no failure of the store, answers 201 and
    adds one project, named after [P] with " (Copy)" appended and with the
    description and file name of [P], that has exactly [N] custom fields,
    each with the definition of the corresponding field of [P]. *)
Theorem clone_project_copies cfg now (request : Request unit) project_id w P :
  has_permission cfg now request "workspace.admin" = Return true →
  db_consistent (db w) →
  get_object_or_404 (db w) project_id = Return P →
  survives (S (length (custom_fields_all (db w) project_id))) (fault w) →
  ∃ new_project new_fields w',
    clone_project cfg now request project_id w
    = ({| response_data := ProjectData new_project new_fields;
          status := HTTP_201_CREATED |}, w')
    ∧ projects (db w') = (projects (db w) ++ [new_project])%list
    ∧ Forall (λ p, Project.id p ≠ Project.id new_project) (projects (db w))
    ∧ Project.name new_project = Project.name P +:+ " (Copy)"
    ∧ Project.description new_project = Project.description P
    ∧ Project.file_name new_project = Project.file_name P
    ∧ custom_fields_all (db w') (Project.id new_project) = new_fields
    ∧ length new_fields = length (custom_fields_all (db w) project_id)
    ∧ Forall2 same_definition (custom_fields_all (db w) project_id) new_fields.
Proof.
  destruct w as [d f]. cbn [db fault].
  intros Hperm Hd Hget Hs.
  set (fields := custom_fields_all d project_id) in *.
  set (row := cloned_project_row now d P).
  set (mk := cloned_field now (Project.id row)).
  exists row, (rows_from mk fields (custom_field_seq d)).
  exists {| db := insert_fields mk fields (insert_project row d);
            fault := fault_after (length fields) (fault_after 1 f) |}.
  assert (clone_project_try now project_id {| db := d; fault := f |}
          = (Return {| response_data :=
                         ProjectData row (rows_from mk fields (custom_field_seq d));
                       status := HTTP_201_CREATED |},
             {| db := insert_fields mk fields (insert_project row d);
                fault := fault_after (length fields) (fault_after 1 f) |})) as Htry.
  { unfold clone_project_try, orm_bind, orm_read. cbn [db].
    rewrite Hget. cbn [mbind result_bind]. fold fields.
    unfold Project_objects_create.
    rewrite orm_write_survives by (destruct f; simpl in *; lia).
    cbn [fst snd]. fold (cloned_project_row now d P). fold row.
    rewrite (for_each_survives mk)
      by (try (intros; apply clone_field_writes); destruct f; simpl in *; lia).
    rewrite (serialize_new_project mk) by done.
    done. }
  split.
  { unfold clone_project. by rewrite Hperm, Htry. }
  cbn [db].
  destruct (insert_fields_tables mk fields (insert_project row d)) as (_ & Hp & _ & _).
  rewrite Hp. split; [done|].
  split.
  { destruct Hd as [Hprojects _]. eapply Forall_impl; [exact Hprojects|].
    simpl. intros p Hlt. lia. }
  do 3 (split; [done|]).
  split; [by apply new_project_fields|].
  split; [apply rows_from_length|].
  apply rows_from_Forall2. intros x id. by repeat split.
Qed.

Lemma take_rows_from {A} (mk : A → Z → CustomField.t) (xs : list A) start j :
  rows_from mk (take j xs) start = take j (rows_from mk xs start).
Proof.
  revert start j. induction xs as [|x xs IH]; intros start [|j]; simpl; try done.
  by rewrite IH.
Qed.

(** C3, as the code has it: [clone_project] opens no transaction.  When the
    [k]-th write of an authorized clone fails ([k = 0]: the project row,
    [k = j + 1]: the copy of field [j]), the answer is 500; the store is
    unchanged for [k = 0], and for [k = j + 1] it keeps the new project row
    and the [j] copies made before the failure. *)
Theorem clone_project_keeps_partial_rows cfg now (request : Request unit) project_id w P k :
  has_permission cfg now request "workspace.admin" = Return true →
  get_object_or_404 (db w) project_id = Return P →
  fault w = Some k →
  (k ≤ length (custom_fields_all (db w) project_id))%nat →
  ∃ w',
    clone_project cfg now request project_id w
    = ({| response_data := Error "Error cloning project: database error";
          status := HTTP_500_INTERNAL_SERVER_ERROR |}, w')
    ∧ match k with
      | O => db w' = db w
      | S j =>
          ∃ new_project copies,
            projects (db w') = (projects (db w) ++ [new_project])%list
            ∧ Project.name new_project = Project.name P +:+ " (Copy)"
            ∧ custom_fields (db w') = (custom_fields (db w) ++ copies)%list
            ∧ length copies = j
            ∧ Forall (λ f, CustomField.project f = Project.id new_project) copies
            ∧ Forall2 same_definition
                (take j (custom_fields_all (db w) project_id)) copies
      end.
Proof.
  destruct w as [d f]. cbn [db fault].
  intros Hperm Hget -> Hk.
  set (fields := custom_fields_all d project_id) in *.
  unfold clone_project. rewrite Hperm.
  unfold clone_project_try, orm_bind, orm_read. cbn [db].
  rewrite Hget. cbn [mbind result_bind]. fold fields.
  unfold Project_objects_create.
  destruct k as [|j].
  - rewrite orm_write_fails. eexists. split; [reflexivity|done].
  - rewrite orm_write_survives by (simpl; lia).
    cbn [fst snd fault_after]. fold (cloned_project_row now d P).
    set (row := cloned_project_row now d P).
    set (mk := cloned_field now (Project.id row)).
    replace (S j - 1)%nat with j by lia.
    rewrite (for_each_fails mk) by (try (intros; apply clone_field_writes); lia).
    eexists. split; [reflexivity|]. cbn [db].
    exists row, (rows_from mk (take j fields) (custom_field_seq d)).
    destruct (insert_fields_tables mk (take j fields) (insert_project row d))
      as (_ & -> & _ & ->).
    split; [done|]. split; [done|]. split; [done|].
    split; [rewrite rows_from_length, length_take; lia|].
    split; [by apply rows_from_Forall|].
    apply rows_from_Forall2. intros x id. by repeat split.
Qed.

Lemma default_rows_summary now project_id start :
  field_summary <$> rows_from (default_field now project_id) default_fields start
  = default_summaries.
Proof. reflexivity. Qed.

(** C4, as the code has it: an authorized [create_project] with valid data
    and no failure of the store answers 201 with a project that has exactly
    the three default fields Filename, Date Created and Date Modified, of
    orders 0, 1 and 2, each required, default and not removable.  There is
    no rollback: when the write of default field [j] fails, the answer is
    500 and the store keeps the project row with the [j] default fields
    written before; only a failure of the project row itself leaves the
    store unchanged. *)
Theorem create_project_seeds_defaults cfg now
    (request : Request (validated ProjectCreateData)) validated_data w :
  has_permission cfg now request "workspace.admin" = Return true →
  data request = Valid validated_data →
  db_consistent (db w) →
  (survives 4 (fault w) →
     ∃ project fields w',
       create_project cfg now request w
       = ({| response_data := ProjectData project fields;
             status := HTTP_201_CREATED |}, w')
       ∧ projects (db w') = (projects (db w) ++ [project])%list
       ∧ custom_fields_all (db w') (Project.id project) = fields
       ∧ field_summary <$> fields = default_summaries)
  ∧ (fault w = Some O →
     ∃ w',
       create_project cfg now request w
       = ({| response_data := Error "Error creating project: database error";
             status := HTTP_500_INTERNAL_SERVER_ERROR |}, w')
       ∧ db w' = db w)
  ∧ (∀ j, fault w = Some (S j) → (j < 3)%nat →
     ∃ project w',
       create_project cfg now request w
       = ({| response_data := Error "Error creating project: database error";
             status := HTTP_500_INTERNAL_SERVER_ERROR |}, w')
       ∧ projects (db w') = (projects (db w) ++ [project])%list
       ∧ field_summary <$> custom_fields_all (db w') (Project.id project)
         = take j default_summaries).
Proof.
  destruct w as [d f]. cbn [db fault].
  intros Hperm Hdata Hd.
  set (row := created_project_row now d validated_data).
  set (mk := default_field now (Project.id row)).
  unfold create_project. rewrite Hperm, Hdata.
  unfold create_project_try, orm_bind, Project_objects_create.
  split; [|split].
  - intros Hs.
    rewrite orm_write_survives by (destruct f; simpl in *; lia).
    cbn [fst snd]. fold (created_project_row now d validated_data). fold row.
    rewrite (for_each_survives mk)
      by (try (intros; apply create_default_field_writes); destruct f; simpl in *; lia).
    rewrite (serialize_new_project mk) by done.
    unfold orm_return.
    eexists _, _, _. split; [reflexivity|]. cbn [db].
    destruct (insert_fields_tables mk default_fields (insert_project row d))
      as (_ & Hp & _ & _).
    split; [done|]. split; [by apply new_project_fields|].
    apply default_rows_summary.
  - intros ->. rewrite orm_write_fails. eexists. split; [reflexivity|done].
  - intros j -> Hj.
    rewrite orm_write_survives by (simpl; lia).
    cbn [fst snd fault_after]. fold (created_project_row now d validated_data). fold row.
    replace (S j - 1)%nat with j by lia.
    rewrite (for_each_fails mk)
      by (try (intros; apply create_default_field_writes); simpl; lia).
    exists row. eexists. split; [reflexivity|]. cbn [db].
    destruct (insert_fields_tables mk (take j default_fields) (insert_project row d))
      as (_ & Hp & _ & _).
    split; [done|].
    rewrite new_project_fields by done.
    rewrite take_rows_from, fmap_take. unfold mk. by rewrite default_rows_summary.
Qed.

(** * Further properties of the code *)

#[local] Arguments token_response : simpl never.
#[local] Arguments UserSerializer_data : simpl never.
#[local] Arguments demo_user : simpl never.

(** ** Tokens *)

Lemma validate_token_inversion cfg now tok claims :
  validate_token cfg now tok = Some claims →
  ∃ body,
    tok = Compact "HS256" body (hmac_sha256 (JWT_SECRET_KEY cfg) "HS256" body)
    ∧ body !! "iss" = Some (JStr (JWT_ISSUER cfg))
    ∧ (∃ aud, body !! "aud" = Some aud ∧ aud_matches (JWT_AUDIENCE cfg) aud = true)
    ∧ (∀ t, body !! "exp" = Some (JNum t) → now < t)
    ∧ claims = filter (λ kv, standard_claim kv.1 = false) body.
Proof.
  unfold validate_token, jwt_decode.
  destruct tok as [alg body sig|raw]; [|done].
  destruct (existsb (String.eqb alg) ["HS256"]) eqn:Halg; simpl; [|done].
  destruct (String.eqb sig _) eqn:Hsig; simpl; [|done].
  simpl in Halg. rewrite orb_false_r in Halg.
  apply String.eqb_eq in Halg, Hsig. subst alg sig.
  intros Hdec. exists body. split; [done|].
  assert (∀ t, body !! "exp" = Some (JNum t) → now < t) as Hexp.
  { intros t Ht. unfold numeric_claim in Hdec. rewrite Ht in Hdec.
    destruct (body !! "iat") as [[| |iat| | |]|]; simpl in Hdec; try done;
    destruct (body !! "nbf") as [[| |nbf| | |]|]; simpl in Hdec; try done;
    repeat (match type of Hdec with
            | context [if (?a <? ?b) then _ else _] =>
                destruct (a <? b); simpl in Hdec; try done
            end);
    destruct (t <=? now) eqn:Hle; simpl in Hdec; try done;
    apply Z.leb_gt in Hle; done. }
  unfold numeric_claim in Hdec.
  destruct (body !! "iat") as [[| |iat| | |]|]; simpl in Hdec; try done;
  destruct (body !! "nbf") as [[| |nbf| | |]|]; simpl in Hdec; try done;
  destruct (body !! "exp") as [[| |exp| | |]|]; simpl in Hdec; try done;
  repeat (match type of Hdec with
          | context [if (?a <? ?b) then _ else _] =>
              destruct (a <? b); simpl in Hdec; try done
          | context [if (?a <=? ?b) then _ else _] =>
              destruct (a <=? b); simpl in Hdec; try done
          end);
  (destruct (body !! "iss") as [[| | |iss| |]|]; simpl in Hdec; try done);
  (destruct (String.eqb iss (JWT_ISSUER cfg)) eqn:Heq; simpl in Hdec; [|done]);
  apply String.eqb_eq in Heq; subst iss;
  (destruct (body !! "aud") as [aud|]; simpl in Hdec; [|done]);
  (destruct (aud_matches (JWT_AUDIENCE cfg) aud) eqn:Hm; simpl in Hdec; [|done]);
  (destruct (string_claim (body !! "sub")); simpl in Hdec; [|done]);
  (destruct (string_claim (body !! "jti")); simpl in Hdec; [|done]);
  injection Hdec as <-;
  (split; [done|]); (split; [by exists aud|]); (split; [done|]); done.
Qed.

(** X1: only a token signed under the secret key with HS256, addressed to this
    issuer and audience and not yet expired yields claims, and the claims
    [validate_token] returns are the payload without the four standard
    claims. *)
Theorem validate_token_sound cfg now tok claims :
  validate_token cfg now tok = Some claims →
  ∃ body,
    tok = Compact "HS256" body (hmac_sha256 (JWT_SECRET_KEY cfg) "HS256" body)
    ∧ body !! "iss" = Some (JStr (JWT_ISSUER cfg))
    ∧ (∃ aud, body !! "aud" = Some aud ∧ aud_matches (JWT_AUDIENCE cfg) aud = true)
    ∧ (∀ t, body !! "exp" = Some (JNum t) → now < t)
    ∧ claims = filter (λ kv, standard_claim kv.1 = false) body
    ∧ (∀ k, standard_claim k = true → claims !! k = None).
Proof.
  intros Hv.
  destruct (validate_token_inversion _ _ _ _ Hv) as (body & Htok & Hiss & Haud & Hexp & ->).
  exists body. repeat (split; [done|]).
  intros k Hk. apply map_lookup_filter_None. right. intros x _. simpl. by rewrite Hk.
Qed.


Lemma existsb_JStr_fmap (p : string) (perms : list string) :
  existsb (λ j, match j with JStr s => String.eqb p s | _ => false end) (JStr <$> perms)
  = bool_decide (p ∈ perms).
Proof.
  destruct (existsb _ _) eqn:Hex.
  - apply existsb_JStr in Hex. apply list_elem_of_fmap in Hex as (q & [= ->] & Hin).
    by rewrite bool_decide_eq_true_2.
  - case_bool_decide as Hin; [|done].
    assert (JStr p ∈ JStr <$> perms) as Hj by (apply list_elem_of_fmap; eauto).
    apply existsb_JStr in Hj. congruence.
Qed.

Lemma identity_dict_nonempty id username email is_immutable roles permissions :
  identity_dict id username email is_immutable roles permissions ≠ ∅.
Proof.
  intros Hempty.
  assert (identity_dict id username email is_immutable roles permissions !! "id" = None) as Hid
    by (rewrite Hempty; apply lookup_empty).
  discriminate Hid.
Qed.

(** The answer of [has_permission] for a bearer token that validates to an
    identity dictionary. *)
Lemma has_permission_identity {D} cfg now (request : Request D) tok
    id username email is_immutable roles permissions p :
  HTTP_AUTHORIZATION request = Some {| first7 := "Bearer "; after7 := tok |} →
  validate_token cfg now tok
  = Some (identity_dict id username email is_immutable roles permissions) →
  has_permission cfg now request p = Return (bool_decide (p ∈ permissions)).
Proof.
  intros Hh Hv. unfold has_permission. rewrite Hh. simpl. rewrite Hv.
  rewrite bool_decide_eq_true_2 by apply identity_dict_nonempty.
  change (identity_dict id username email is_immutable roles permissions !! "permissions")
    with (Some (JArr (JStr <$> permissions))).
  simpl. by rewrite existsb_JStr_fmap.
Qed.

Lemma has_permission_rejected_token {D} cfg now (request : Request D) tok p :
  HTTP_AUTHORIZATION request = Some {| first7 := "Bearer "; after7 := tok |} →
  validate_token cfg now tok = None →
  has_permission cfg now request p = Return false.
Proof. intros Hh Hv. unfold has_permission. rewrite Hh. simpl. by rewrite Hv. Qed.

(** X3: under a signing key HMAC accepts and an audience that is not empty,
    a token issued for an identity with its permissions authorizes exactly
    those permissions while it is valid, and nothing once it has expired. *)
Theorem issued_token_authorizes_until_expiry cfg t_exp t_iat now later
    id username email is_immutable roles permissions tok p :
  symmetric_key (JWT_SECRET_KEY cfg) = true →
  JWT_AUDIENCE cfg ≠ "" →
  t_exp ≤ t_iat →
  t_iat ≤ now < t_exp + hours24 →
  t_iat + hours24 < later →
  (generate_token cfg t_exp t_iat
     (PJson <$> identity_dict id username email is_immutable roles permissions)).1
  = Return tok →
  let request := {| HTTP_AUTHORIZATION := Some {| first7 := "Bearer "; after7 := tok |};
                    data := tt |} in
  has_permission cfg now request p = Return (bool_decide (p ∈ permissions))
  ∧ has_permission cfg later request p = Return false.
Proof.
  intros _ Haud Hmono Hvalid Hlate. rewrite generate_token_issues. intros [= <-] request.
  split.
  - eapply has_permission_identity; [reflexivity|].
    rewrite validate_issued; [|done|reflexivity..|done].
    by rewrite strip_identity_dict.
  - eapply has_permission_rejected_token; [reflexivity|].
    by apply validate_expired.
Qed.

(** ** login, further *)

(** Every answer of [login_try] is a token response or the 401. *)
Lemma login_try_answers cfg d clk email password resp :
  login_try cfg d clk email password = Return resp →
  (∃ claims, token_response cfg clk claims = Return resp)
  ∨ (∃ message, resp = {| response_data := Message message;
                          status := HTTP_401_UNAUTHORIZED |}).
Proof.
  assert (∀ user,
            database_authentication cfg d clk email password = Return (inr (user, false)) →
            login_try cfg d clk email password = Return resp →
            (∃ claims, token_response cfg clk claims = Return resp)
            ∨ (∃ message, resp = {| response_data := Message message;
                                    status := HTTP_401_UNAUTHORIZED |})) as Hrest.
  { intros user Hdb. unfold login_try. rewrite Hdb.
    cbn [mbind result_bind negb]. rewrite orb_true_r.
    destruct (demo_user clk email password) as [claims|].
    - destruct (token_response cfg clk claims) as [r|e] eqn:Hr.
      + cbn [mbind result_bind]. intros [= <-]. left. by exists claims.
      + cbn [mbind result_bind]. intros Hraise. discriminate Hraise.
    - cbn [mbind result_bind]. intros [= <-]. right. eauto. }
  destruct (User_objects_get d email) as [user|e] eqn:Hget.
  - destruct (password_match user password) as [[|]|e] eqn:Hpw.
    + unfold login_try, database_authentication. rewrite Hget, Hpw.
      cbn [mbind result_bind].
      destruct (token_response cfg clk (UserSerializer_data user)) as [r|e] eqn:Hr.
      * cbn [mbind result_bind]. intros [= <-]. left. by eexists.
      * cbn [mbind result_bind]. intros Hraise. discriminate Hraise.
    + apply (Hrest (Some user)). by apply database_authentication_wrong.
    + unfold login_try, database_authentication. rewrite Hget, Hpw.
      cbn [mbind result_bind]. intros Hraise. discriminate Hraise.
  - destruct e;
      try (unfold login_try, database_authentication; rewrite Hget;
           cbn [mbind result_bind]; intros Hraise; discriminate Hraise).
    apply (Hrest None). by apply database_authentication_unknown.
Qed.

(** X4: [generate_token] updates the dictionary it is given, and [login] puts
    that same dictionary into its answer: whenever [login] answers with a
    token, the [user] beside it holds the standard claims of the token,
    [exp] and [iat] as the instants read. *)
Theorem login_user_holds_standard_claims cfg clk d w tok user expires_at st w' :
  login cfg clk (Valid d) w
  = ({| response_data := AuthResponse tok user expires_at; status := st |}, w') →
  user !! "iss" = Some (PJson (JStr (JWT_ISSUER cfg)))
  ∧ user !! "aud" = Some (PJson (JStr (JWT_AUDIENCE cfg)))
  ∧ user !! "exp" = Some (PDatetime (t_exp clk + hours24))
  ∧ user !! "iat" = Some (PDatetime (t_iat clk))
  ∧ st = HTTP_200_OK
  ∧ expires_at = expires_at_text clk.
Proof.
  unfold login.
  destruct (login_try cfg (db w) clk (login_email d) (login_password d)) as [resp|]
    eqn:Htry; [|done].
  intros [= -> _].
  destruct (login_try_answers _ _ _ _ _ _ Htry) as [(claims & Hresp)|(message & [=])].
  rewrite token_response_returns in Hresp.
  injection Hresp as _ <- <- <-.
  unfold update_standard_claims. by simplify_map_eq.
Qed.

(** X5: under a signing key HMAC accepts and an audience that is not empty,
    a user of the database whose password check returns true gets a token
    that validates to the serialized user, and with it exactly the
    permissions granted through the user's roles. *)
Theorem database_login_authorizes cfg clk w d user now :
  symmetric_key (JWT_SECRET_KEY cfg) = true →
  JWT_AUDIENCE cfg ≠ "" →
  User_objects_get (db w) (login_email d) = Return user →
  password_match user (login_password d) = Return true →
  t_iat clk ≤ now < t_exp clk + hours24 →
  ∃ tok user_data,
    login cfg clk (Valid d) w
    = ({| response_data := AuthResponse tok user_data (expires_at_text clk);
          status := HTTP_200_OK |}, w)
    ∧ validate_token cfg now tok = Some (UserSerializer_data user)
    ∧ ∀ p,
        has_permission cfg now
          {| HTTP_AUTHORIZATION := Some {| first7 := "Bearer "; after7 := tok |};
             data := tt |} p
        = Return true
        ↔ granted user p.
Proof.
  intros _ Haud Hget Hpw Hvalid.
  eexists _, _. split; [|split].
  - unfold login, login_try, database_authentication.
    rewrite Hget, Hpw. simpl. rewrite token_response_returns. simpl. reflexivity.
  - rewrite validate_issued; [|done|reflexivity..|done].
    unfold UserSerializer_data. by rewrite strip_identity_dict.
  - intros p.
    erewrite has_permission_identity; [|reflexivity|].
    2:{ rewrite validate_issued; [|done|reflexivity..|done].
        unfold UserSerializer_data. by rewrite strip_identity_dict. }
    rewrite <- elem_of_get_permissions_set. unfold get_permissions.
    rewrite <- elem_of_elements.
    split; [intros [= Hb]; by apply bool_decide_eq_true in Hb
           | intros Hin; by rewrite bool_decide_eq_true_2].
Qed.

Lemma demo_user_identity clk email password claims :
  demo_user clk email password = Some claims →
  ∃ id username is_immutable roles permissions,
    claims = identity_dict id username email is_immutable roles permissions.
Proof.
  unfold demo_user.
  repeat (match goal with
          | |- context [if ?b then _ else _] => destruct b
          end); intros [= <-]; eauto 10.
Qed.

(** X6: under a signing key HMAC accepts and an audience that is not empty,
    the three demo credentials are accepted when the lookup finds no user
    with that email, and also when it finds one whose password check returns
    false: the answer is 200 with a token for the demo identity of that
    email. *)
Theorem demo_credentials_accepted cfg clk w email password now :
  symmetric_key (JWT_SECRET_KEY cfg) = true →
  JWT_AUDIENCE cfg ≠ "" →
  (email, password) ∈ [ ("admin@agentdms.com", "admin123");
                        ("gill.dan2@gmail.com", "admin123");
                        ("superadmin@agentdms.com", "sarasa123") ] →
  (User_objects_get (db w) email = Raise DoesNotExist
   ∨ ∃ user, User_objects_get (db w) email = Return user
             ∧ password_match user password = Return false) →
  t_iat clk ≤ now < t_exp clk + hours24 →
  ∃ tok user_data claims,
    login cfg clk (Valid {| login_email := email; login_password := password |}) w
    = ({| response_data := AuthResponse tok user_data (expires_at_text clk);
          status := HTTP_200_OK |}, w)
    ∧ demo_user clk email password = Some claims
    ∧ validate_token cfg now tok = Some claims
    ∧ claims !! "email" = Some (JStr email).
Proof.
  intros _ Haud Hdemo Hdb Hvalid.
  assert (∃ user, database_authentication cfg (db w) clk email password
                  = Return (inr (user, false))) as [user Hauth].
  { destruct Hdb as [Hnone|(user & Hsome & Hpw)].
    - exists None. by apply database_authentication_unknown.
    - exists (Some user). by apply database_authentication_wrong. }
  assert (∃ claims, demo_user clk email password = Some claims) as [claims Hclaims].
  { repeat (apply elem_of_cons in Hdemo as [[= -> ->]|Hdemo]; [by eexists|]).
    by apply elem_of_nil in Hdemo. }
  destruct (demo_user_identity _ _ _ _ Hclaims)
    as (id & username & is_immutable & roles & permissions & ->).
  eexists _, _, _. split; [|split; [exact Hclaims|split; [|reflexivity]]].
  - unfold login. simpl.
    rewrite (login_try_demo _ _ _ _ _ _ _ Hauth Hclaims).
    rewrite token_response_returns. reflexivity.
  - rewrite validate_issued; [|done|reflexivity..|done].
    by rewrite strip_identity_dict.
Qed.


(** ** Lookups under a unique key *)

Lemma filter_key_absent {A K} `{EqDecision K} (f : A → K) (k : K) (l : list A) :
  k ∉ (f <$> l) → filter (λ x, f x = k) l = [].
Proof.
  intros Hnin. apply filter_none. apply Forall_forall. intros x Hx Hk.
  apply Hnin. apply list_elem_of_fmap. eauto.
Qed.

Lemma filter_key_unique {A K} `{EqDecision K} (f : A → K) (l : list A) (x : A) :
  NoDup (f <$> l) → x ∈ l → filter (λ y, f y = f x) l = [x].
Proof.
  induction l as [|y l IH]; intros Hnd Hin; [by apply elem_of_nil in Hin|].
  rewrite fmap_cons in Hnd. apply NoDup_cons in Hnd as [Hy Hnd].
  apply elem_of_cons in Hin as [->|Hin].
  - rewrite filter_cons_True by done. by rewrite filter_key_absent.
  - rewrite filter_cons_False; [by apply IH|].
    intros Heq. apply Hy. rewrite Heq. apply list_elem_of_fmap. eauto.
Qed.

Lemma objects_get_unique {A K} `{EqDecision K} (f : A → K) (l : list A) (k : K) :
  NoDup (f <$> l) →
  (∃ x, x ∈ l ∧ f x = k ∧ objects_get (filter (λ y, f y = k) l) = Return x)
  ∨ ((k ∉ (f <$> l)) ∧ objects_get (filter (λ y, f y = k) l) = Raise DoesNotExist).
Proof.
  intros Hnd. destruct (decide (k ∈ (f <$> l))) as [Hin|Hnin].
  - left. apply list_elem_of_fmap in Hin as (x & -> & Hx). exists x.
    split; [done|]. split; [done|]. by rewrite filter_key_unique.
  - right. split; [done|]. by rewrite filter_key_absent.
Qed.

(** ** forgot_password and get_current_user *)

(** X8: with unique emails, [forgot_password] gives every email the same
    answer, 200 with the one message, and touches nothing: it does not tell
    whether an account exists. *)
Theorem forgot_password_uniform w d1 d2 :
  NoDup (User.email <$> users (db w)) →
  forgot_password (Valid d1) w = forgot_password (Valid d2) w
  ∧ forgot_password (Valid d1) w
    = ({| response_data :=
            Message "If an account with that email exists, a password reset link has been sent.";
          status := HTTP_200_OK |}, w).
Proof.
  intros Hnd.
  assert (∀ d, forgot_password (Valid d) w
               = ({| response_data :=
                       Message "If an account with that email exists, a password reset link has been sent.";
                     status := HTTP_200_OK |}, w)) as Hall.
  { intros d. unfold forgot_password, User_objects_get.
    destruct (objects_get_unique User.email (users (db w)) (forgot_email d) Hnd)
      as [(u & _ & _ & ->)|[_ ->]]; done. }
  by rewrite !Hall.
Qed.

(** X9: under a signing key HMAC accepts and an audience that is not empty,
    a request that the framework lets through to the body, with a token of
    [generate_token], gets its identity back from [get_current_user] while
    the token is valid; once the token has expired the answer is still 200,
    with the sample admin user.  A request the framework refuses gets the
    refusal, valid token or not. *)
Theorem get_current_user_round_trip cfg t_exp t_iat now later created_at
    id username email is_immutable roles permissions tok :
  symmetric_key (JWT_SECRET_KEY cfg) = true →
  JWT_AUDIENCE cfg ≠ "" →
  t_exp ≤ t_iat →
  t_iat ≤ now < t_exp + hours24 →
  t_iat + hours24 < later →
  (generate_token cfg t_exp t_iat
     (PJson <$> identity_dict id username email is_immutable roles permissions)).1
  = Return tok →
  let request := {| HTTP_AUTHORIZATION := Some {| first7 := "Bearer "; after7 := tok |};
                    data := tt |} in
  get_current_user cfg now created_at Proceeds request
  = Body {| claims_data := identity_dict id username email is_immutable roles permissions;
            claims_status := HTTP_200_OK |}
  ∧ get_current_user cfg later created_at Proceeds request
    = Body {| claims_data := sample_user created_at; claims_status := HTTP_200_OK |}
  ∧ ∀ status_code detail,
      get_current_user cfg now created_at (Refused status_code detail) request
      = Denial status_code detail.
Proof.
  intros _ Haud Hmono Hvalid Hlate. rewrite generate_token_issues. intros [= <-] request.
  unfold get_current_user, api_view. cbn [HTTP_AUTHORIZATION request first7 after7].
  rewrite String.eqb_refl.
  rewrite validate_issued; [|done|reflexivity..|done].
  rewrite strip_identity_dict.
  rewrite bool_decide_eq_true_2 by apply identity_dict_nonempty.
  by rewrite validate_expired.
Qed.

(** X10: what [get_current_user] reports is no authorization: a request the
    framework lets through to the body without a token [validate_token]
    accepts is told it is the sample user holding ["workspace.admin"],
    while [has_permission] denies it that permission. *)
Theorem sample_user_is_not_authorized {D} cfg now created_at (request : Request D) :
  unauthenticated cfg now request →
  get_current_user cfg now created_at Proceeds request
  = Body {| claims_data := sample_user created_at; claims_status := HTTP_200_OK |}
  ∧ sample_user created_at !! "permissions" = Some (JArr [JStr "workspace.admin"])
  ∧ has_permission cfg now request "workspace.admin" = Return false.
Proof.
  unfold unauthenticated, get_current_user, api_view, has_permission.
  destruct (HTTP_AUTHORIZATION request) as [h|]; [|done].
  intros [Hne|Hnone].
  - apply String.eqb_neq in Hne. by rewrite Hne.
  - rewrite Hnone. by destruct (String.eqb _ _).
Qed.

(** ** The project views, further *)

Lemma for_each_outcome {A} (mk : A → Z → CustomField.t) body (xs : list A) d f :
  (∀ x, body x = write_field mk x) →
  ∃ j r f',
    (j ≤ length xs)%nat
    ∧ for_each xs body {| db := d; fault := f |}
      = (r, {| db := insert_fields mk (take j xs) d; fault := f' |}).
Proof.
  intros Hbody.
  destruct f as [k|].
  - destruct (decide (k < length xs)%nat) as [Hlt|Hge].
    + exists k. eexists _, _. split; [lia|]. by apply for_each_fails.
    + exists (length xs). eexists _, _. split; [lia|].
      rewrite firstn_all. apply for_each_survives; [done|simpl; lia].
  - exists (length xs). eexists _, _. split; [lia|].
    rewrite firstn_all. by apply for_each_survives.
Qed.

(** The store [clone_project] leaves: the one it found, or that one with
    the cloned project and the first copies of its fields appended. *)
Lemma clone_project_store cfg now (request : Request unit) project_id w :
  db (clone_project cfg now request project_id w).2 = db w
  ∨ ∃ P j,
      get_object_or_404 (db w) project_id = Return P
      ∧ db (clone_project cfg now request project_id w).2
        = insert_fields (cloned_field now (project_seq (db w)))
            (take j (custom_fields_all (db w) project_id))
            (insert_project (cloned_project_row now (db w) P) (db w)).
Proof.
  destruct w as [d f]. cbn [db]. unfold clone_project.
  destruct (has_permission cfg now request "workspace.admin") as [[|]|]; [|by left..].
  unfold clone_project_try, orm_bind, orm_read. cbn [db].
  destruct (get_object_or_404 d project_id) as [P|e] eqn:Hget;
    cbn [mbind result_bind]; [|by left].
  unfold Project_objects_create.
  destruct (decide (f = Some O)) as [->|Hf].
  { rewrite orm_write_fails. by left. }
  rewrite orm_write_survives by (destruct f as [[|k]|]; simpl; [done|lia|done]).
  cbn [fst snd]. fold (cloned_project_row now d P).
  set (row := cloned_project_row now d P).
  destruct (for_each_outcome (cloned_field now (Project.id row))
              (clone_field now row) (custom_fields_all d project_id)
              (insert_project row d) (fault_after 1 f))
    as (j & r & f' & Hj & ->); [intros; apply clone_field_writes|].
  right. exists P, j. split; [done|].
  destruct r as [[]|e]; [|done].
  unfold ProjectSerializer_data, orm_read, orm_return. cbn [db].
  by destruct (Project_objects_get _ _).
Qed.

Lemma create_project_store cfg now
    (request : Request (validated ProjectCreateData)) w :
  db (create_project cfg now request w).2 = db w
  ∨ ∃ validated_data j,
      data request = Valid validated_data
      ∧ db (create_project cfg now request w).2
        = insert_fields (default_field now (project_seq (db w)))
            (take j default_fields)
            (insert_project (created_project_row now (db w) validated_data) (db w)).
Proof.
  destruct w as [d f]. cbn [db]. unfold create_project.
  destruct (has_permission cfg now request "workspace.admin") as [[|]|]; [|by left..].
  unfold create_project_try.
  destruct (data request) as [validated_data|errors] eqn:Hdata; [|by left].
  unfold orm_bind, Project_objects_create.
  destruct (decide (f = Some O)) as [->|Hf].
  { rewrite orm_write_fails. by left. }
  rewrite orm_write_survives by (destruct f as [[|k]|]; simpl; [done|lia|done]).
  cbn [fst snd]. fold (created_project_row now d validated_data).
  set (row := created_project_row now d validated_data).
  destruct (for_each_outcome (default_field now (Project.id row))
              (create_default_field now row) default_fields
              (insert_project row d) (fault_after 1 f))
    as (j & r & f' & Hj & ->); [intros; apply create_default_field_writes|].
  right. exists validated_data, j. split; [done|].
  destruct r as [[]|e]; [|done].
  unfold ProjectSerializer_data, orm_read, orm_return. cbn [db].
  by destruct (Project_objects_get _ _).
Qed.

Lemma insert_consistent {A} (mk : A → Z → CustomField.t) (xs : list A)
    (row : Project.t) d :
  db_consistent d →
  Project.id row = project_seq d →
  (∀ x id, CustomField.project (mk x id) = project_seq d) →
  db_consistent (insert_fields mk xs (insert_project row d)).
Proof.
  intros [Hp Hf] Hid Hmk. unfold db_consistent.
  destruct (insert_fields_tables mk xs (insert_project row d)) as (_ & -> & -> & ->).
  simpl. split.
  - apply Forall_app. split.
    + eapply Forall_impl; [exact Hp|]. simpl. intros. lia.
    + constructor; [lia|constructor].
  - apply Forall_app. split.
    + eapply Forall_impl; [exact Hf|]. simpl. intros. lia.
    + apply rows_from_Forall. intros x id. rewrite Hmk. lia.
Qed.

(** X11: whatever the request and whatever fails, [clone_project] and
    [create_project] leave the project sequence ahead of every project
    identifier stored or referred to. *)
Theorem project_views_keep_consistency cfg now
    (clone_request : Request unit) project_id
    (create_request : Request (validated ProjectCreateData)) w :
  db_consistent (db w) →
  db_consistent (db (clone_project cfg now clone_request project_id w).2)
  ∧ db_consistent (db (create_project cfg now create_request w).2).
Proof.
  intros Hd. split.
  - destruct (clone_project_store cfg now clone_request project_id w)
      as [->|(P & j & _ & ->)]; [done|].
    by apply insert_consistent.
  - destruct (create_project_store cfg now create_request w)
      as [->|(validated_data & j & _ & ->)]; [done|].
    by apply insert_consistent.
Qed.

Lemma insert_only_appended {A} (mk : A → Z → CustomField.t) (xs : list A)
    (row : Project.t) d :
  (∀ x id, CustomField.project (mk x id) = project_seq d) →
  only_appended d (insert_fields mk xs (insert_project row d)).
Proof.
  intros Hmk. unfold only_appended.
  destruct (insert_fields_tables mk xs (insert_project row d)) as (-> & -> & _ & ->).
  split; [done|]. eexists [row], _. simpl.
  split; [done|]. split; [lia|]. split; [done|]. by apply rows_from_Forall.
Qed.

Lemma only_appended_refl d : only_appended d d.
Proof.
  split; [done|]. exists [], []. rewrite !app_nil_r.
  split; [done|]. split; [simpl; lia|]. split; [done|constructor].
Qed.

(** X12: whatever the request and whatever fails, [clone_project] and
    [create_project] only append: the users are untouched, the rows that
    were there stay as they were and where they were, at most one project is
    added, and every custom field added belongs to the project numbered by
    the sequence. *)
Theorem project_views_only_append cfg now
    (clone_request : Request unit) project_id
    (create_request : Request (validated ProjectCreateData)) w :
  only_appended (db w) (db (clone_project cfg now clone_request project_id w).2)
  ∧ only_appended (db w) (db (create_project cfg now create_request w).2).
Proof.
  split.
  - destruct (clone_project_store cfg now clone_request project_id w)
      as [->|(P & j & _ & ->)]; [apply only_appended_refl|].
    by apply insert_only_appended.
  - destruct (create_project_store cfg now create_request w)
      as [->|(validated_data & j & _ & ->)]; [apply only_appended_refl|].
    by apply insert_only_appended.
Qed.

Lemma get_object_or_404_missing d project_id :
  Forall (λ p, Project.id p ≠ project_id) (projects d) →
  get_object_or_404 d project_id = Raise Http404.
Proof.
  intros Hall. unfold get_object_or_404, Project_objects_get.
  rewrite filter_none; [done|].
  eapply Forall_impl; [exact Hall|]. done.
Qed.

(** X13: an authorized clone of a project that does not exist is answered 500,
    not 404: the [Http404] of [get_object_or_404] is caught by the view's own
    handler.  Nothing is written. *)
Theorem clone_missing_project_is_500 cfg now (request : Request unit) project_id w :
  has_permission cfg now request "workspace.admin" = Return true →
  Forall (λ p, Project.id p ≠ project_id) (projects (db w)) →
  clone_project cfg now request project_id w
  = ({| response_data :=
          Error "Error cloning project: No Project matches the given query.";
        status := HTTP_500_INTERNAL_SERVER_ERROR |}, w).
Proof.
  intros Hperm Hmissing. unfold clone_project. rewrite Hperm.
  unfold clone_project_try, orm_bind, orm_read.
  by rewrite get_object_or_404_missing.
Qed.

Lemma clone_project_succeeds cfg now (request : Request unit) project_id d f P :
  has_permission cfg now request "workspace.admin" = Return true →
  db_consistent d →
  get_object_or_404 d project_id = Return P →
  survives (S (length (custom_fields_all d project_id))) f →
  clone_project cfg now request project_id {| db := d; fault := f |}
  = ({| response_data :=
          ProjectData (cloned_project_row now d P)
            (rows_from (cloned_field now (project_seq d))
               (custom_fields_all d project_id) (custom_field_seq d));
        status := HTTP_201_CREATED |},
     {| db := insert_fields (cloned_field now (project_seq d))
                (custom_fields_all d project_id)
                (insert_project (cloned_project_row now d P) d);
        fault := fault_after (length (custom_fields_all d project_id))
                   (fault_after 1 f) |}).
Proof.
  intros Hperm Hd Hget Hs.
  unfold clone_project. rewrite Hperm.
  unfold clone_project_try, orm_bind, orm_read. cbn [db].
  rewrite Hget. cbn [mbind result_bind].
  unfold Project_objects_create.
  rewrite orm_write_survives by (destruct f; simpl in *; lia).
  cbn [fst snd]. fold (cloned_project_row now d P).
  set (row := cloned_project_row now d P).
  rewrite (for_each_survives (cloned_field now (Project.id row)))
    by (try (intros; apply clone_field_writes); destruct f; simpl in *; lia).
  rewrite (serialize_new_project (cloned_field now (Project.id row))) by done.
  done.
Qed.

Lemma create_project_succeeds cfg now
    (request : Request (validated ProjectCreateData)) validated_data d f :
  has_permission cfg now request "workspace.admin" = Return true →
  data request = Valid validated_data →
  db_consistent d →
  survives 4 f →
  create_project cfg now request {| db := d; fault := f |}
  = ({| response_data :=
          ProjectData (created_project_row now d validated_data)
            (rows_from (default_field now (project_seq d)) default_fields
               (custom_field_seq d));
        status := HTTP_201_CREATED |},
     {| db := insert_fields (default_field now (project_seq d)) default_fields
                (insert_project (created_project_row now d validated_data) d);
        fault := fault_after 3 (fault_after 1 f) |}).
Proof.
  intros Hperm Hdata Hd Hs.
  unfold create_project. rewrite Hperm, Hdata.
  unfold create_project_try, orm_bind, Project_objects_create.
  rewrite orm_write_survives by (destruct f; simpl in *; lia).
  cbn [fst snd]. fold (created_project_row now d validated_data).
  set (row := created_project_row now d validated_data).
  rewrite (for_each_survives (default_field now (Project.id row)))
    by (try (intros; apply create_default_field_writes); destruct f; simpl in *; lia).
  rewrite (serialize_new_project (default_field now (Project.id row))) by done.
  done.
Qed.

Lemma get_project_new {A D} (mk : A → Z → CustomField.t) (xs : list A)
    (row : Project.t) d f (request : Request D) :
  db_consistent d →
  Project.id row = project_seq d →
  (∀ x id, CustomField.project (mk x id) = Project.id row) →
  get_project Proceeds request (Project.id row)
    {| db := insert_fields mk xs (insert_project row d); fault := f |}
  = (Body {| response_data := ProjectData row (rows_from mk xs (custom_field_seq d));
             status := HTTP_200_OK |},
     {| db := insert_fields mk xs (insert_project row d); fault := f |}).
Proof.
  intros Hd Hid Hmk. unfold get_project, api_view, get_object_or_404. cbn [db].
  rewrite new_project_found by done.
  by rewrite new_project_fields.
Qed.

(** X14: the clone does not inherit the state of its source: whatever the
    flags and the modifier of [P], the cloned project is active and not
    archived and has no modifier, and the copied fields belong to it and
    have no modifier. *)
Theorem clone_project_is_fresh cfg now (request : Request unit) project_id w P :
  has_permission cfg now request "workspace.admin" = Return true →
  db_consistent (db w) →
  get_object_or_404 (db w) project_id = Return P →
  survives (S (length (custom_fields_all (db w) project_id))) (fault w) →
  ∃ new_project new_fields w',
    clone_project cfg now request project_id w
    = ({| response_data := ProjectData new_project new_fields;
          status := HTTP_201_CREATED |}, w')
    ∧ Project.is_active new_project = true
    ∧ Project.is_archived new_project = false
    ∧ Project.modified_by new_project = None
    ∧ Project.id new_project ≠ Project.id P
    ∧ Forall (λ f, CustomField.modified_by f = None
                   ∧ CustomField.project f = Project.id new_project) new_fields.
Proof.
  destruct w as [d f]. cbn [db fault]. intros Hperm Hd Hget Hs.
  eexists _, _, _. split; [by apply clone_project_succeeds|].
  do 3 (split; [done|]).
  split.
  - cbn [cloned_project_row Project.id].
    unfold get_object_or_404, Project_objects_get in Hget.
    destruct (filter _ (projects d)) as [|p [|]] eqn:Hf; try done.
    injection Hget as ->.
    assert (P ∈ filter (λ p, Project.id p = project_id) (projects d)) as Hin
      by (rewrite Hf; apply list_elem_of_singleton; done).
    apply list_elem_of_filter in Hin as [_ Hin].
    destruct Hd as [Hp _]. pose proof (proj1 (Forall_forall _ _) Hp _ Hin) as Hlt.
    simpl in Hlt. simpl. lia.
  - apply rows_from_Forall. intros x id. done.
Qed.

(** X15: a project just created is what [get_project] returns under its
    identifier, to any request the framework lets through to the body: the
    same project with the same three default fields. *)
Theorem create_then_get_project {D} cfg now
    (request : Request (validated ProjectCreateData)) validated_data w
    (reader : Request D) :
  has_permission cfg now request "workspace.admin" = Return true →
  data request = Valid validated_data →
  db_consistent (db w) →
  survives 4 (fault w) →
  ∃ project fields w',
    create_project cfg now request w
    = ({| response_data := ProjectData project fields;
          status := HTTP_201_CREATED |}, w')
    ∧ Project.name project = create_name validated_data
    ∧ get_project Proceeds reader (Project.id project) w'
      = (Body {| response_data := ProjectData project fields; status := HTTP_200_OK |},
         w').
Proof.
  destruct w as [d f]. cbn [db fault]. intros Hperm Hdata Hd Hs.
  eexists _, _, _. split; [by apply create_project_succeeds|].
  split; [done|].
  by apply (get_project_new (default_field now (project_seq d))).
Qed.

(** X16: a project just cloned is what [get_project] returns under its
    identifier, to any request the framework lets through to the body, with
    the copied fields; and the source is still returned as it was, with the
    fields it had. *)
Theorem clone_then_get_project {D} cfg now (request : Request unit) project_id w P
    (reader : Request D) :
  has_permission cfg now request "workspace.admin" = Return true →
  db_consistent (db w) →
  get_object_or_404 (db w) project_id = Return P →
  survives (S (length (custom_fields_all (db w) project_id))) (fault w) →
  ∃ new_project new_fields w',
    clone_project cfg now request project_id w
    = ({| response_data := ProjectData new_project new_fields;
          status := HTTP_201_CREATED |}, w')
    ∧ get_project Proceeds reader (Project.id new_project) w'
      = (Body {| response_data := ProjectData new_project new_fields;
                 status := HTTP_200_OK |}, w')
    ∧ get_project Proceeds reader project_id w'
      = (Body {| response_data := ProjectData P (custom_fields_all (db w) project_id);
                 status := HTTP_200_OK |}, w').
Proof.
  destruct w as [d f]. cbn [db fault]. intros Hperm Hd Hget Hs.
  eexists _, _, _. split; [by apply clone_project_succeeds|].
  split; [by apply (get_project_new (cloned_field now (project_seq d)))|].
  (* the source is still found, with the fields it had *)
  unfold get_project, api_view. cbn [db].
  assert (project_id < project_seq d) as Hlt.
  { unfold get_object_or_404, Project_objects_get in Hget.
    destruct (filter _ (projects d)) as [|p [|]] eqn:Hf; try done.
    injection Hget as ->.
    assert (P ∈ filter (λ p, Project.id p = project_id) (projects d)) as Hin
      by (rewrite Hf; apply list_elem_of_singleton; done).
    apply list_elem_of_filter in Hin as [<- Hin].
    destruct Hd as [Hp _]. by apply (proj1 (Forall_forall _ _) Hp). }
  set (row := cloned_project_row now d P).
  set (mk := cloned_field now (project_seq d)).
  assert (get_object_or_404 (insert_fields mk (custom_fields_all d project_id)
                               (insert_project row d)) project_id
          = Return P) as ->.
  { unfold get_object_or_404, Project_objects_get in *.
    destruct (insert_fields_tables mk (custom_fields_all d project_id)
                (insert_project row d)) as (_ & -> & _ & _).
    simpl. rewrite filter_app.
    rewrite (filter_cons_False _ row) by (simpl; lia).
    by rewrite filter_nil, app_nil_r. }
  assert (custom_fields_all (insert_fields mk (custom_fields_all d project_id)
                               (insert_project row d)) (Project.id P)
          = custom_fields_all d project_id) as ->; [|done].
  assert (Project.id P = project_id) as ->.
  { unfold get_object_or_404, Project_objects_get in Hget.
    destruct (filter _ (projects d)) as [|p [|]] eqn:Hf; try done.
    injection Hget as ->.
    assert (P ∈ filter (λ p, Project.id p = project_id) (projects d)) as Hin
      by (rewrite Hf; apply list_elem_of_singleton; done).
    by apply list_elem_of_filter in Hin as [<- Hin]. }
  unfold custom_fields_all at 1.
  destruct (insert_fields_tables mk (custom_fields_all d project_id)
              (insert_project row d)) as (_ & _ & _ & ->).
  simpl. rewrite filter_app.
  rewrite (filter_none _ (rows_from _ _ _)); [by rewrite app_nil_r|].
  apply rows_from_Forall. intros x id. simpl. lia.
Qed.

(** X17: the body of [get_project] asks for no permission: any request the
    framework lets through to it, also one without a header, is shown a
    stored project with its custom fields, and gets 404 for an identifier no
    project has; a request the framework refuses gets the refusal, whatever
    the identifier.  The store stays as it was. *)
Theorem get_project_is_public {D} (request : Request D) w :
  NoDup (Project.id <$> projects (db w)) →
  (∀ P, P ∈ projects (db w) →
     get_project Proceeds request (Project.id P) w
     = (Body {| response_data := ProjectData P (custom_fields_all (db w) (Project.id P));
                status := HTTP_200_OK |}, w))
  ∧ (∀ project_id, project_id ∉ (Project.id <$> projects (db w)) →
     get_project Proceeds request project_id w
     = (Body {| response_data := Error "Project not found";
                status := HTTP_404_NOT_FOUND |}, w))
  ∧ (∀ status_code detail project_id,
     get_project (Refused status_code detail) request project_id w
     = (Denial status_code detail, w)).
Proof.
  intros Hnd. split; [|split].
  - intros P HP. unfold get_project, api_view, get_object_or_404, Project_objects_get.
    by rewrite filter_key_unique.
  - intros project_id Hnin.
    unfold get_project, api_view, get_object_or_404, Project_objects_get.
    by rewrite filter_key_absent.
  - done.
Qed.

(** ** get_projects *)

Lemma page_count_bounds count n :
  0 < n → 0 ≤ count →
  1 ≤ page_count count n
  ∧ count ≤ page_count count n * n
  ∧ (page_count count n - 1) * n < Z.max 1 count.
Proof.
  intros Hn Hc. unfold page_count.
  pose proof (Z.div_mod (- Z.max 1 count) n ltac:(lia)) as Hdm.
  pose proof (Z.mod_pos_bound (- Z.max 1 count) n Hn) as Hmod.
  set (q := (- Z.max 1 count) / n) in *.
  set (r := (- Z.max 1 count) mod n) in *.
  assert (- q * n = Z.max 1 count + r) as Heq by lia.
  repeat split; nia.
Qed.

Lemma page_count_negative count n : n < 0 → page_count count n ≤ 0.
Proof.
  intros Hn. unfold page_count.
  assert (0 ≤ (- Z.max 1 count) / n); [|lia].
  rewrite <- (Z.opp_involutive n), Z.div_opp_opp by lia.
  apply Z.div_pos; lia.
Qed.

Lemma served_page_range pages k :
  1 ≤ pages → 1 ≤ served_page pages k ≤ pages.
Proof.
  intros Hp. unfold served_page.
  destruct (k <? 1) eqn:H1; [lia|]. apply Z.ltb_ge in H1.
  destruct (pages <? k) eqn:H2; [lia|]. apply Z.ltb_ge in H2. lia.
Qed.

(** A page in range is the stretch of [per_page] rows that starts behind
    the pages before it. *)
Lemma Paginator_page_in_range {A} (l : list A) n k :
  0 < n →
  1 ≤ k ≤ page_count (Z.of_nat (length l)) n →
  Paginator_page l n (page_count (Z.of_nat (length l)) n) k
  = inr (take (Z.to_nat n) (drop (Z.to_nat ((k - 1) * n)) l)).
Proof.
  intros Hn Hk.
  destruct (page_count_bounds (Z.of_nat (length l)) n Hn ltac:(lia)) as (H1 & Hcover & Hlast).
  unfold Paginator_page, Paginator_validate_number.
  rewrite (proj2 (Z.ltb_ge k 1)) by lia.
  rewrite (proj2 (Z.ltb_ge _ k)) by lia.
  f_equal. unfold slice.
  destruct (Z.of_nat (length l) <=? (k - 1) * n + n) eqn:Hle.
  - apply Z.leb_le in Hle.
    rewrite !take_ge; [done| |]; rewrite length_drop; lia.
  - f_equal. lia.
Qed.

Lemma Paginator_get_page_served {A} (l : list A) n k :
  0 < n →
  Paginator_get_page l n (page_count (Z.of_nat (length l)) n) k
  = inr (take (Z.to_nat n)
           (drop (Z.to_nat ((served_page (page_count (Z.of_nat (length l)) n) k - 1) * n)) l)).
Proof.
  intros Hn.
  destruct (page_count_bounds (Z.of_nat (length l)) n Hn ltac:(lia)) as (H1 & _ & _).
  unfold Paginator_get_page, Paginator_validate_number, served_page.
  destruct (k <? 1) eqn:Hk1.
  - apply Paginator_page_in_range; lia.
  - apply Z.ltb_ge in Hk1.
    destruct (page_count (Z.of_nat (length l)) n <? k) eqn:Hk2.
    + apply Paginator_page_in_range; lia.
    + apply Z.ltb_ge in Hk2. apply Paginator_page_in_range; lia.
Qed.

Lemma no_underflow count n :
  n < 2 ^ 1075 → float_underflows (Z.max 1 count) n = false.
Proof.
  intros Hn. unfold float_underflows.
  apply andb_false_iff. right. apply Z.leb_gt.
  set (big := 2 ^ 1075) in *.
  assert (0 < big) by (subst big; by vm_compute).
  nia.
Qed.

(** What [get_projects] answers to a bearer header for page [k] of [n]
    entries, for a page size above 0 whose quotient does not underflow. *)
Lemma get_projects_page {D} (request : Request D) h k n include w :
  HTTP_AUTHORIZATION request = Some h →
  first7 h = "Bearer " →
  0 < n < 2 ^ 1075 →
  get_projects request (projects_query k n include) w
  = let queryset := projects_queryset (db w) (wants_archived include) in
    let pages := page_count (Z.of_nat (length queryset)) n in
    {| page_data :=
         serialized_projects (db w)
           (take (Z.to_nat n)
              (drop (Z.to_nat ((served_page pages k - 1) * n)) queryset));
       total_count := Z.of_nat (length queryset);
       page := if pages <? k then pages else k;
       page_size := n;
       total_pages := pages |}.
Proof.
  intros Hh Hb [Hn Hbig]. unfold get_projects. rewrite Hh, Hb. simpl String.eqb. cbv iota.
  unfold get_projects_try, projects_query. cbn [query_page query_pageSize
    query_includeArchived int_param].
  fold (wants_archived include).
  set (queryset := projects_queryset (db w) (wants_archived include)).
  unfold Paginator_num_pages. rewrite (proj2 (Z.eqb_neq n 0)) by lia.
  cbv zeta. rewrite (no_underflow _ _ Hbig).
  fold (page_count (Z.of_nat (length queryset)) n).
  set (pages := page_count (Z.of_nat (length queryset)) n).
  destruct (page_count_bounds (Z.of_nat (length queryset)) n Hn ltac:(lia)) as (H1 & _ & _).
  fold pages in H1.
  rewrite (proj2 (Z.ltb_lt 0 pages)) by lia. rewrite andb_true_r.
  pose proof (Paginator_get_page_served queryset n (if pages <? k then pages else k) Hn)
    as Hpg.
  fold pages in Hpg. rewrite Hpg. clear Hpg.
  cbv zeta. unfold serialized_projects. do 4 f_equal.
  do 3 f_equal. unfold served_page.
  repeat match goal with
         | |- context [?a <? ?b] => destruct (Z.ltb_spec a b)
         end; lia.
Qed.

Lemma concat_pages {A} (l : list A) (n pages : nat) :
  (length l ≤ pages * n)%nat →
  concat ((λ i, take n (drop (i * n) l)) <$> seq 0 pages) = l.
Proof.
  revert l. induction pages as [|pages IH]; intros l Hlen.
  - simpl in *. destruct l; [done|simpl in Hlen; lia].
  - cbn [seq fmap list_fmap concat]. simpl drop.
    rewrite <- seq_shift, <- list_fmap_compose.
    rewrite <- (take_drop n l) at 2. f_equal.
    rewrite <- (IH (drop n l)) by (rewrite length_drop; lia).
    f_equal. apply list_fmap_ext. intros _ i _. simpl.
    by rewrite drop_drop.
Qed.

Lemma fmap_concat_list {A B} (f : A → B) (ls : list (list A)) :
  f <$> concat ls = concat ((λ l : list A, f <$> l) <$> ls).
Proof.
  induction ls as [|l ls IH]; [done|].
  simpl. by rewrite fmap_app, IH.
Qed.

(** X18: for fewer than [2 ^ 53] stored projects and a page size [n] above 0
    and below [2 ^ 1075], where the float quotient of the paginator rounds
    to the side of the exact one, the pages [get_projects] serves share out
    the listed projects: each has at most [n] entries, and the pages 1 to
    [total_pages], one after the other, are the projects of the query, each
    once and in their order. *)
Theorem get_projects_pages_partition {D} (request : Request D) h n include w :
  HTTP_AUTHORIZATION request = Some h →
  first7 h = "Bearer " →
  Z.of_nat (length (projects (db w))) < 2 ^ 53 →
  0 < n < 2 ^ 1075 →
  let answer k := get_projects request (projects_query k n include) w in
  (∀ k, (length (page_data (answer k)) ≤ Z.to_nat n)%nat
        ∧ total_pages (answer k) = total_pages (answer 1))
  ∧ concat ((λ i, page_data (answer (Z.of_nat i)))
              <$> seq 1 (Z.to_nat (total_pages (answer 1))))
    = serialized_projects (db w) (projects_queryset (db w) (wants_archived include)).
Proof.
  intros Hh Hb _ Hbound answer.
  assert (0 < n) as Hn by lia.
  set (queryset := projects_queryset (db w) (wants_archived include)).
  set (pages := page_count (Z.of_nat (length queryset)) n).
  assert (∀ k, answer k
            = {| page_data :=
                   serialized_projects (db w)
                     (take (Z.to_nat n)
                        (drop (Z.to_nat ((served_page pages k - 1) * n)) queryset));
                 total_count := Z.of_nat (length queryset);
                 page := if pages <? k then pages else k;
                 page_size := n;
                 total_pages := pages |}) as Hanswer.
  { intros k. unfold answer. by rewrite (get_projects_page request h). }
  destruct (page_count_bounds (Z.of_nat (length queryset)) n Hn ltac:(lia))
    as (H1 & Hcover & _). fold pages in H1, Hcover.
  split.
  - intros k. rewrite !Hanswer. cbn [page_data total_pages]. split; [|done].
    unfold serialized_projects. rewrite length_fmap, length_take. lia.
  - rewrite Hanswer. cbn [total_pages].
    transitivity (serialized_projects (db w)
                    (concat ((λ i, take (Z.to_nat n) (drop (i * Z.to_nat n) queryset))
                               <$> seq 0 (Z.to_nat pages))));
      [|by rewrite concat_pages by nia].
    unfold serialized_projects at 1. rewrite fmap_concat_list.
    rewrite <- seq_shift, <- !list_fmap_compose.
    f_equal. apply list_fmap_ext. intros j i Hi. simpl.
    apply lookup_seq in Hi as [-> Hi]. simpl in *.
    rewrite Hanswer. cbn [page_data]. unfold serialized_projects.
    do 3 f_equal. unfold served_page.
    repeat match goal with
           | |- context [?a <? ?b] => destruct (Z.ltb_spec a b)
           end; nia.
Qed.

(** X19: for fewer than [2 ^ 53] stored projects and a page size [n] above 0
    and below [2 ^ 1075], a page number past the last page is answered with
    the last page and reported as such; a page number below 1 is answered
    with the last page too, but reported under the number asked. *)
Theorem get_projects_out_of_range {D} (request : Request D) h n include w k :
  HTTP_AUTHORIZATION request = Some h →
  first7 h = "Bearer " →
  Z.of_nat (length (projects (db w))) < 2 ^ 53 →
  0 < n < 2 ^ 1075 →
  let answer k := get_projects request (projects_query k n include) w in
  let last := total_pages (answer 1) in
  (last < k → answer k = answer last)
  ∧ (k < 1 → page_data (answer k) = page_data (answer last) ∧ page (answer k) = k).
Proof.
  intros Hh Hb _ Hbound answer last.
  assert (0 < n) as Hn by lia.
  set (queryset := projects_queryset (db w) (wants_archived include)).
  destruct (page_count_bounds (Z.of_nat (length queryset)) n Hn ltac:(lia)) as (H1 & _ & _).
  assert (last = page_count (Z.of_nat (length queryset)) n) as Hlast.
  { unfold last, answer. by rewrite (get_projects_page request h). }
  unfold answer. rewrite !(get_projects_page request h) by done.
  cbv zeta. fold queryset. rewrite <- Hlast. rewrite <- Hlast in H1.
  split.
  - intros Hk. f_equal.
    + do 4 f_equal. unfold served_page.
      repeat match goal with
             | |- context [?a <? ?b] => destruct (Z.ltb_spec a b)
             end; lia.
    + rewrite Z.ltb_irrefl. by rewrite (proj2 (Z.ltb_lt last k)).
  - intros Hk. cbn [page_data page]. split.
    + do 4 f_equal. unfold served_page.
      repeat match goal with
             | |- context [?a <? ?b] => destruct (Z.ltb_spec a b)
             end; lia.
    + by rewrite (proj2 (Z.ltb_ge last k)) by lia.
Qed.

Lemma Paginator_get_page_Forall {A} (P : A → Prop) (l pg : list A) n pages k :
  Paginator_get_page l n pages k = inr pg → Forall P l → Forall P pg.
Proof.
  assert (∀ j, Paginator_page l n pages j = inr pg → Forall P l → Forall P pg) as Hpage.
  { intros j. unfold Paginator_page.
    destruct (Paginator_validate_number pages j); [done|].
    intros [= <-] Hall. unfold slice. by apply Forall_take, Forall_drop. }
  unfold Paginator_get_page.
  destruct (Paginator_validate_number pages k); apply Hpage.
Qed.

(** X20: unless the query asks for archived projects, no archived project is
    listed, on any page and whatever else the request says. *)
Theorem get_projects_hides_archived {D} (request : Request D) query w :
  wants_archived (query_includeArchived query) = false →
  Forall not_archived_item (page_data (get_projects request query w)).
Proof.
  intros Hwants. unfold get_projects.
  destruct (match HTTP_AUTHORIZATION request with
            | Some auth_header => String.eqb (first7 auth_header) "Bearer "
            | None => false
            end); [|by repeat constructor].
  unfold get_projects_try.
  destruct (int_param 1 (query_page query)) as [e|k]; [by repeat constructor|].
  destruct (int_param 10 (query_pageSize query)) as [e|n]; [by repeat constructor|].
  fold (wants_archived (query_includeArchived query)). rewrite Hwants.
  destruct (Paginator_num_pages _ n) as [e|pages]; [by repeat constructor|].
  destruct (Paginator_get_page _ _ _ _) as [e|pg] eqn:Hpg; [by repeat constructor|].
  cbn [page_data]. apply Forall_fmap.
  eapply (Paginator_get_page_Forall (λ p, Project.is_archived p = false)); [exact Hpg|].
  unfold projects_queryset. apply Forall_forall. intros p Hp.
  by apply list_elem_of_filter in Hp as [Hp _].
Qed.

(** X21: a page or a page size that does not read as an integer, and a page size
    that is not positive, are not refused: the answer is the page with the
    one sample project, which is no stored project. *)
Theorem get_projects_falls_back {D} (request : Request D) h query w :
  HTTP_AUTHORIZATION request = Some h →
  first7 h = "Bearer " →
  (∃ raw, query_page query = BadParam raw)
  ∨ (∃ raw, query_pageSize query = BadParam raw)
  ∨ (∃ n, query_pageSize query = IntParam n ∧ n ≤ 0) →
  get_projects request query w = sample_page.
Proof.
  intros Hh Hb Hbad. unfold get_projects. rewrite Hh, Hb. simpl String.eqb. cbv iota.
  unfold get_projects_try.
  destruct Hbad as [[raw ->]|[[raw ->]|(n & -> & Hn)]].
  - done.
  - by destruct (int_param 1 (query_page query)).
  - destruct (int_param 1 (query_page query)) as [e|k]; [done|].
    cbn [int_param]. unfold Paginator_num_pages.
    destruct (Z.eqb_spec n 0) as [->|Hn0]; [done|].
    cbv zeta. unfold float_underflows.
    rewrite (proj2 (Z.ltb_ge 0 n)) by lia. cbn [andb].
    fold (page_count (Z.of_nat (length (projects_queryset (db w)
            (String.eqb (lower (default "false" (query_includeArchived query))) "true")))) n).
    set (pages := page_count _ n).
    assert (pages ≤ 0) as Hpages by (apply page_count_negative; lia).
    rewrite (proj2 (Z.ltb_ge 0 pages)) by lia. rewrite andb_false_r.
    unfold Paginator_get_page, Paginator_page, Paginator_validate_number.
    rewrite (proj2 (Z.ltb_lt pages 1)) by lia.
    destruct (k <? 1) eqn:Hk; [done|]. apply Z.ltb_ge in Hk.
    by rewrite (proj2 (Z.ltb_lt pages k)) by lia.
Qed.

(** X23: a page size so large that the float quotient of the paginator
    rounds to zero is not served: for fewer than [2 ^ 53] stored projects
    and a page size of at least [2 ^ 1128], the paginator counts no page,
    every page number is out of range, and the answer to a bearer header is
    the page with the one sample project, whatever page is asked. *)
Theorem get_projects_huge_page_size {D} (request : Request D) h k n include w :
  HTTP_AUTHORIZATION request = Some h →
  first7 h = "Bearer " →
  Z.of_nat (length (projects (db w))) < 2 ^ 53 →
  2 ^ 1128 ≤ n →
  get_projects request (projects_query k n include) w = sample_page.
Proof.
  intros Hh Hb Hcount Hn. unfold get_projects. rewrite Hh, Hb. simpl String.eqb. cbv iota.
  unfold get_projects_try, projects_query. cbn [query_page query_pageSize
    query_includeArchived int_param].
  fold (wants_archived include).
  set (queryset := projects_queryset (db w) (wants_archived include)).
  assert (Z.of_nat (length queryset) ≤ Z.of_nat (length (projects (db w)))) as Hle.
  { unfold queryset, projects_queryset.
    destruct (wants_archived include); [lia|]. apply inj_le, length_filter. }
  assert (2 ^ 1128 = 2 ^ 53 * 2 ^ 1075) as Hpow by (by vm_compute).
  set (big := 2 ^ 1075) in *. set (count := 2 ^ 53) in *.
  assert (0 < big) by (subst big; by vm_compute).
  unfold Paginator_num_pages, float_underflows. fold big.
  assert (n ≠ 0) as Hn0 by nia.
  rewrite (proj2 (Z.eqb_neq n 0)) by done. cbv zeta.
  rewrite (proj2 (Z.ltb_lt 0 n)) by nia.
  rewrite (proj2 (Z.leb_le (Z.max 1 (Z.of_nat (length queryset)) * big) n)) by nia.
  cbn [andb]. rewrite andb_false_r.
  unfold Paginator_get_page, Paginator_page, Paginator_validate_number.
  destruct (k <? 1) eqn:Hk1; [done|]. apply Z.ltb_ge in Hk1.
  by rewrite (proj2 (Z.ltb_lt 0 k)) by lia.
Qed.

Lemma get_projects_default {D} (request : Request D) include w :
  get_projects request
    {| query_page := NoParam; query_pageSize := NoParam;
       query_includeArchived := include |} w
  = get_projects request (projects_query 1 10 include) w.
Proof. reflexivity. Qed.

(** X22: [get_projects] looks at the header only as far as its first seven
    characters: a request whose bearer token [validate_token] refuses, which
    [has_permission] denies everything, is still listed the first ten stored
    projects that are not archived. *)
Theorem get_projects_does_not_validate {D} cfg now (request : Request D) h w p :
  HTTP_AUTHORIZATION request = Some h →
  first7 h = "Bearer " →
  validate_token cfg now (after7 h) = None →
  has_permission cfg now request p = Return false
  ∧ page_data (get_projects request
                 {| query_page := NoParam; query_pageSize := NoParam;
                    query_includeArchived := None |} w)
    = serialized_projects (db w)
        (take 10 (filter (λ p, Project.is_archived p = false) (projects (db w)))).
Proof.
  intros Hh Hb Hv. split.
  - unfold has_permission. by rewrite Hh, Hb, Hv.
  - rewrite get_projects_default, (get_projects_page request h) by done.
    cbv zeta. cbn [page_data].
    set (queryset := projects_queryset (db w) (wants_archived None)).
    destruct (page_count_bounds (Z.of_nat (length queryset)) 10 ltac:(lia) ltac:(lia))
      as (H1 & _ & _).
    assert (served_page (page_count (Z.of_nat (length queryset)) 10) 1 = 1) as ->.
    { unfold served_page.
      repeat match goal with
             | |- context [?a <? ?b] => destruct (Z.ltb_spec a b)
             end; lia. }
    reflexivity.
Qed.

End AgentDMS.

(** * The model run on the example data *)

Lemma db0_consistent : db_consistent db0.
Proof. split; repeat constructor; vm_compute; reflexivity. Qed.

Lemma admin_request_permitted {D} (d : D) :
  has_permission toy_hmac cfg0 2000 (admin_request d) "workspace.admin" = Return true.
Proof. vm_compute. reflexivity. Qed.

(** [token_round_trip] at a token issued at 1000 and validated at 2000 and
    at 90000. *)
Lemma token_round_trip_witness :
  ∃ tok,
    (generate_token toy_hmac cfg0 1000 1000 (PJson <$> viewer_claims)).1 = Return tok
    ∧ validate_token toy_hmac cfg0 2000 tok = Some viewer_claims
    ∧ validate_token toy_hmac cfg0 90000 tok = None.
Proof.
  apply (token_round_trip toy_hmac cfg0 1000 1000 2000 90000
           (JStr "2") "gill.dan2" "gill.dan2@gmail.com" false [] ["document.view"]);
    [reflexivity | discriminate | lia | unfold hours24; lia | unfold hours24; lia].
Defined.

(** [clone_project_copies] on the project Alpha and its two fields. *)
Lemma clone_project_copies_witness :
  get_object_or_404 db0 1 = Return alpha
  ∧ length (custom_fields_all db0 1) = 2%nat
  ∧ ∃ new_project new_fields w',
      clone_project toy_hmac cfg0 2000 (admin_request tt) 1 {| db := db0; fault := None |}
      = ({| response_data := ProjectData new_project new_fields;
            status := HTTP_201_CREATED |}, w')
      ∧ Project.name new_project = "Alpha (Copy)"
      ∧ custom_fields_all (db w') (Project.id new_project) = new_fields
      ∧ length new_fields = 2%nat
      ∧ Forall2 same_definition [alpha_filename; alpha_invoice] new_fields.
Proof.
  split; [reflexivity|]. split; [reflexivity|].
  destruct (clone_project_copies toy_hmac cfg0 2000 (admin_request tt) 1
              {| db := db0; fault := None |} alpha
              (admin_request_permitted tt) db0_consistent eq_refl I)
    as (new_project & new_fields & w' & Hclone & _ & _ & Hname & _ & _ & Hall & Hlen & Hsame).
  exists new_project, new_fields, w'.
  repeat split; assumption.
Defined.

(** Against C3 as stated: the copy of the second field of Alpha fails, and
    the cloned project row and the copy of the first field stay in the
    store. *)
Lemma clone_project_leaves_partial_clone :
  clone_project toy_hmac cfg0 2000 (admin_request tt) 1 {| db := db0; fault := Some 2%nat |}
  = ({| response_data := Error "Error cloning project: database error";
        status := HTTP_500_INTERNAL_SERVER_ERROR |},
     {| db := db0_after_failed_clone; fault := None |})
  ∧ projects db0_after_failed_clone = (projects db0 ++ [alpha_copy])%list
  ∧ custom_fields_all db0_after_failed_clone 2 = [cloned_field 2000 2 alpha_filename 3].
Proof. repeat split; vm_compute; reflexivity. Qed.

(** [clone_project_keeps_partial_rows] at the same failure. *)
Lemma clone_project_keeps_partial_rows_witness :
  get_object_or_404 db0 1 = Return alpha
  ∧ ∃ w' new_project copies,
      clone_project toy_hmac cfg0 2000 (admin_request tt) 1
        {| db := db0; fault := Some 2%nat |}
      = ({| response_data := Error "Error cloning project: database error";
            status := HTTP_500_INTERNAL_SERVER_ERROR |}, w')
      ∧ projects (db w') = [alpha; new_project]
      ∧ custom_fields (db w') = ([alpha_filename; alpha_invoice] ++ copies)%list
      ∧ length copies = 1%nat.
Proof.
  split; [reflexivity|].
  destruct (clone_project_keeps_partial_rows toy_hmac cfg0 2000 (admin_request tt) 1
              {| db := db0; fault := Some 2%nat |} alpha 2
              (admin_request_permitted tt) eq_refl eq_refl (le_n 2))
    as (w' & Hclone & new_project & copies & Hprojects & _ & Hfields & Hlen & _).
  exists w', new_project, copies. repeat split; assumption.
Defined.

(** Against C4 as stated: the first default field fails to be written, and
    the project Beta stays in the store without any default field. *)
Lemma create_project_leaves_bare_project :
  create_project toy_hmac cfg0 2000 (admin_request (Valid beta_data))
    {| db := db0; fault := Some 1%nat |}
  = ({| response_data := Error "Error creating project: database error";
        status := HTTP_500_INTERNAL_SERVER_ERROR |},
     {| db := db0_after_failed_create; fault := None |})
  ∧ projects db0_after_failed_create = (projects db0 ++ [beta])%list
  ∧ custom_fields_all db0_after_failed_create 2 = [].
Proof. repeat split; vm_compute; reflexivity. Qed.

(** [create_project_seeds_defaults] on the project Beta. *)
Lemma create_project_seeds_defaults_witness :
  ∃ project fields w',
    create_project toy_hmac cfg0 2000 (admin_request (Valid beta_data))
      {| db := db0; fault := None |}
    = ({| response_data := ProjectData project fields;
          status := HTTP_201_CREATED |}, w')
    ∧ projects (db w') = [alpha; project]
    ∧ custom_fields_all (db w') (Project.id project) = fields
    ∧ field_summary <$> fields = default_summaries.
Proof.
  exact (proj1 (create_project_seeds_defaults toy_hmac cfg0 2000
                  (admin_request (Valid beta_data)) beta_data
                  {| db := db0; fault := None |}
                  (admin_request_permitted _) eq_refl db0_consistent) I).
Defined.

(** [forbidden_without_workspace_admin] at a clone request whose token holds
    only document.view and a create request without header. *)
Lemma forbidden_without_workspace_admin_witness :
  clone_project toy_hmac cfg0 2000
    {| HTTP_AUTHORIZATION := bearer viewer_claims; data := tt |} 1
    {| db := db0; fault := None |}
  = (access_denied, {| db := db0; fault := None |})
  ∧ create_project toy_hmac cfg0 2000
      {| HTTP_AUTHORIZATION := None; data := Valid beta_data |}
      {| db := db0; fault := None |}
    = (access_denied, {| db := db0; fault := None |})
  ∧ status access_denied = HTTP_403_FORBIDDEN.
Proof.
  apply (forbidden_without_workspace_admin toy_hmac cfg0 2000).
  - eapply (permission_missing toy_hmac cfg0 2000 _ "workspace.admin"
              _ viewer_claims [JStr "document.view"]);
      [reflexivity | reflexivity | vm_compute; reflexivity | reflexivity |].
    intros Hin. apply list_elem_of_singleton in Hin. discriminate Hin.
  - by apply header_absent.
Defined.

(** Against C7 as stated: with [DEBUG] off, a failing login for an email no
    user has is answered 401, and a failing login for the email of carol,
    whose stored hash makes the password check raise, is answered 500. *)
Lemma login_tells_raising_check_apart :
  DEBUG cfg0 = false
  ∧ User_objects_get db0 "nobody@example.com" = Raise DoesNotExist
  ∧ User_objects_get db0 "carol@example.com" = Return carol
  ∧ login toy_hmac toy_bcrypt cfg0 clk0
      (Valid {| login_email := "nobody@example.com"; login_password := "guess" |})
      {| db := db0; fault := None |}
    = ({| response_data := Message "Invalid email or password";
          status := HTTP_401_UNAUTHORIZED |}, {| db := db0; fault := None |})
  ∧ login toy_hmac toy_bcrypt cfg0 clk0
      (Valid {| login_email := "carol@example.com"; login_password := "guess" |})
      {| db := db0; fault := None |}
    = ({| response_data := Message "An error occurred during authentication";
          status := HTTP_500_INTERNAL_SERVER_ERROR |}, {| db := db0; fault := None |}).
Proof. repeat split; reflexivity. Qed.

(** [login_failure_answers] at an unknown email and at bob with a wrong
    password. *)
Lemma login_failure_answers_witness :
  User_objects_get db0 "nobody@example.com" = Raise DoesNotExist
  ∧ User_objects_get db0 "bob@example.com" = Return bob
  ∧ password_match toy_bcrypt bob "wrong" = Return false
  ∧ login toy_hmac toy_bcrypt cfg0 clk0
      (Valid {| login_email := "nobody@example.com"; login_password := "guess" |})
      {| db := db0; fault := None |}
    = ({| response_data := Message "Invalid email or password";
          status := HTTP_401_UNAUTHORIZED |}, {| db := db0; fault := None |})
  ∧ login toy_hmac toy_bcrypt cfg0 clk0
      (Valid {| login_email := "bob@example.com"; login_password := "wrong" |})
      {| db := db0; fault := None |}
    = ({| response_data := Message "Invalid email or password";
          status := HTTP_401_UNAUTHORIZED |}, {| db := db0; fault := None |}).
Proof.
  split; [reflexivity|]. split; [reflexivity|]. split; [reflexivity|].
  destruct (login_failure_answers toy_hmac toy_bcrypt cfg0 clk0
              {| db := db0; fault := None |}
              {| login_email := "nobody@example.com"; login_password := "guess" |}
              {| login_email := "bob@example.com"; login_password := "wrong" |} bob
              eq_refl eq_refl eq_refl eq_refl
              ltac:(vm_compute; discriminate) ltac:(vm_compute; discriminate))
    as (Hunknown & Hknown & _).
  split; [exact Hunknown | exact (Hknown eq_refl)].
Defined.

(** Against C8 as stated: the check of a password against a string that is
    no bcrypt hash raises. *)
Lemma verify_password_raises_example :
  verify_password toy_bcrypt "secret" "not-a-hash" = Raise (ValueError "Invalid salt").
Proof. reflexivity. Qed.

(** [verify_password_malformed_raises] at carol's stored hash. *)
Lemma verify_password_malformed_raises_witness :
  dollar_parts "not-a-hash" = ["not-a-hash"]
  ∧ verify_password toy_bcrypt "secret" "not-a-hash" = Raise (ValueError "Invalid salt")
  ∧ login toy_hmac toy_bcrypt cfg0 clk0
      (Valid {| login_email := "carol@example.com"; login_password := "secret" |})
      {| db := db0; fault := None |}
    = ({| response_data := Message "An error occurred during authentication";
          status := HTTP_500_INTERNAL_SERVER_ERROR |}, {| db := db0; fault := None |}).
Proof.
  split; [reflexivity|].
  assert (length (dollar_parts "not-a-hash") ≠ 3%nat) as Hbad
    by (vm_compute; discriminate).
  destruct (verify_password_malformed_raises toy_hmac toy_bcrypt "secret" "not-a-hash" Hbad)
    as (Hraise & Hlogin & _).
  split; [exact Hraise|].
  exact (Hlogin cfg0 clk0 {| db := db0; fault := None |} carol "carol@example.com"
           eq_refl eq_refl eq_refl).
Defined.

(** Against C9 as stated: the reset is accepted, the store is the same
    afterwards (bob's hash is the one he had), and the same token is accepted
    a second time. *)
Lemma reset_password_changes_nothing :
  reset_password demo_reset {| db := db0; fault := None |}
  = ({| response_data := Message "Password has been reset successfully";
        status := HTTP_200_OK |}, {| db := db0; fault := None |})
  ∧ reset_password demo_reset (reset_password demo_reset {| db := db0; fault := None |}).2
    = ({| response_data := Message "Password has been reset successfully";
          status := HTTP_200_OK |}, {| db := db0; fault := None |})
  ∧ User.password_hash bob = "$2b$04$cVWp4XaNU8a4v1uMRum2SO026BWLIoQMD/TXg5uZV.0P.uO8m3YEm".
Proof. repeat split; reflexivity. Qed.

(** Against C10 as stated: database authentication does not succeed for the
    stored superadmin account, whose password check raises, and [login]
    answers 500 without a token. *)
Lemma superadmin_login_fails_on_raising_check :
  User_objects_get db_superadmin "superadmin@agentdms.com" = Return stored_superadmin
  ∧ password_match toy_bcrypt stored_superadmin "sarasa123"
    = Raise (ValueError "Invalid salt")
  ∧ login toy_hmac toy_bcrypt cfg0 clk0
      (Valid {| login_email := "superadmin@agentdms.com";
                login_password := "sarasa123" |})
      {| db := db_superadmin; fault := None |}
    = ({| response_data := Message "An error occurred during authentication";
          status := HTTP_500_INTERNAL_SERVER_ERROR |},
       {| db := db_superadmin; fault := None |}).
Proof. repeat split; reflexivity. Qed.

(** [superadmin_login] on a store without a superadmin user, the token
    validated at 2000. *)
Lemma superadmin_login_witness :
  User_objects_get db0 "superadmin@agentdms.com" = Raise DoesNotExist
  ∧ ∃ body user_data,
      login toy_hmac toy_bcrypt cfg0 clk0
        (Valid {| login_email := "superadmin@agentdms.com";
                  login_password := "sarasa123" |})
        {| db := db0; fault := None |}
      = ({| response_data :=
              AuthResponse
                (Compact "HS256" body (toy_hmac (JWT_SECRET_KEY cfg0) "HS256" body))
                user_data (expires_at_text clk0);
            status := HTTP_200_OK |}, {| db := db0; fault := None |})
      ∧ body !! "is_immutable" = Some (JBool true)
      ∧ body !! "permissions"
        = Some (JArr [JStr "workspace.admin"; JStr "document.view"; JStr "document.edit";
                      JStr "document.delete"; JStr "document.print";
                      JStr "document.annotate"])
      ∧ validate_token toy_hmac cfg0 2000
          (Compact "HS256" body (toy_hmac (JWT_SECRET_KEY cfg0) "HS256" body))
        = Some (superadmin_claims clk0).
Proof.
  split; [reflexivity|].
  destruct (proj1 (superadmin_login toy_hmac toy_bcrypt cfg0 clk0
                     {| db := db0; fault := None |} eq_refl)
              (or_introl eq_refl))
    as (body & user_data & Hlogin & Himmutable & Hpermissions & Hvalidates).
  exists body, user_data.
  split; [exact Hlogin|]. split; [exact Himmutable|]. split; [exact Hpermissions|].
  apply Hvalidates; [discriminate | unfold hours24; simpl; lia].
Defined.

(** ** The further properties on the example data *)

Lemma issued_viewer_validates :
  validate_token toy_hmac cfg0 2000 (issued viewer_claims) = Some viewer_claims.
Proof. vm_compute. reflexivity. Qed.

Lemma db0_unique_emails : NoDup (User.email <$> users db0).
Proof. apply (bool_decide_unpack _). vm_compute. exact I. Qed.

Lemma db0_unique_projects : NoDup (Project.id <$> projects db0).
Proof. apply (bool_decide_unpack _). vm_compute. exact I. Qed.

(** [validate_token_sound] at the token issued for the viewer. *)
Lemma validate_token_sound_witness :
  ∃ body,
    issued viewer_claims
    = Compact "HS256" body (toy_hmac (JWT_SECRET_KEY cfg0) "HS256" body)
    ∧ body !! "iss" = Some (JStr (JWT_ISSUER cfg0))
    ∧ (∃ aud, body !! "aud" = Some aud ∧ aud_matches (JWT_AUDIENCE cfg0) aud = true)
    ∧ (∀ t, body !! "exp" = Some (JNum t) → 2000 < t)
    ∧ viewer_claims = filter (λ kv, standard_claim kv.1 = false) body
    ∧ (∀ k, standard_claim k = true → viewer_claims !! k = None).
Proof.
  exact (validate_token_sound toy_hmac cfg0 2000 (issued viewer_claims) viewer_claims
           issued_viewer_validates).
Defined.


(** [issued_token_authorizes_until_expiry] at the viewer's token. *)
Lemma issued_token_authorizes_until_expiry_witness :
  has_permission toy_hmac cfg0 2000
    {| HTTP_AUTHORIZATION := Some {| first7 := "Bearer "; after7 := issued viewer_claims |};
       data := tt |} "document.view"
  = Return (bool_decide ("document.view" ∈ ["document.view"]))
  ∧ has_permission toy_hmac cfg0 90000
      {| HTTP_AUTHORIZATION := Some {| first7 := "Bearer "; after7 := issued viewer_claims |};
         data := tt |} "document.view"
    = Return false.
Proof.
  apply (issued_token_authorizes_until_expiry toy_hmac cfg0 1000 1000 2000 90000
           (JStr "2") "gill.dan2" "gill.dan2@gmail.com" false [] ["document.view"]);
    [reflexivity | discriminate | lia | unfold hours24; lia | unfold hours24; lia
    | vm_compute; reflexivity].
Defined.

(** [login_user_holds_standard_claims] at the login of the demo admin. *)
Lemma login_user_holds_standard_claims_witness :
  ∃ tok user,
    login toy_hmac toy_bcrypt cfg0 clk0
      (Valid {| login_email := "admin@agentdms.com"; login_password := "admin123" |})
      {| db := db0; fault := None |}
    = ({| response_data := AuthResponse tok user "2025-08-29T19:00:00Z";
          status := 200 |}, {| db := db0; fault := None |})
    ∧ user !! "iss" = Some (PJson (JStr "AgentDMS"))
    ∧ user !! "exp" = Some (PDatetime (1000 + hours24)).
Proof.
  eexists _, _. split; [vm_compute; reflexivity|].
  pose proof (login_user_holds_standard_claims toy_hmac toy_bcrypt cfg0 clk0
                {| login_email := "admin@agentdms.com"; login_password := "admin123" |}
                {| db := db0; fault := None |} _ _ _ _ _ eq_refl)
    as (Hiss & _ & Hexp & _).
  split; [exact Hiss|exact Hexp].
Defined.

(** [database_login_authorizes] at bob and his password. *)
Lemma database_login_authorizes_witness :
  User_objects_get db0 "bob@example.com" = Return bob
  ∧ password_match toy_bcrypt bob "Kk4DQuMMfZL9o" = Return true
  ∧ ∃ tok user_data,
      login toy_hmac toy_bcrypt cfg0 clk0
        (Valid {| login_email := "bob@example.com"; login_password := "Kk4DQuMMfZL9o" |})
        {| db := db0; fault := None |}
      = ({| response_data := AuthResponse tok user_data (expires_at_text clk0);
            status := HTTP_200_OK |}, {| db := db0; fault := None |})
      ∧ validate_token toy_hmac cfg0 2000 tok = Some (UserSerializer_data bob)
      ∧ ∀ p,
          has_permission toy_hmac cfg0 2000
            {| HTTP_AUTHORIZATION := Some {| first7 := "Bearer "; after7 := tok |};
               data := tt |} p
          = Return true
          ↔ granted bob p.
Proof.
  split; [reflexivity|]. split; [reflexivity|].
  apply (database_login_authorizes toy_hmac toy_bcrypt cfg0 clk0
           {| db := db0; fault := None |}
           {| login_email := "bob@example.com"; login_password := "Kk4DQuMMfZL9o" |} bob 2000);
    [reflexivity | discriminate | reflexivity | reflexivity | unfold hours24; simpl; lia].
Defined.

(** [demo_credentials_accepted] at the second demo account. *)
Lemma demo_credentials_accepted_witness :
  ∃ tok user_data claims,
    login toy_hmac toy_bcrypt cfg0 clk0
      (Valid {| login_email := "gill.dan2@gmail.com"; login_password := "admin123" |})
      {| db := db0; fault := None |}
    = ({| response_data := AuthResponse tok user_data (expires_at_text clk0);
          status := HTTP_200_OK |}, {| db := db0; fault := None |})
    ∧ demo_user clk0 "gill.dan2@gmail.com" "admin123" = Some claims
    ∧ validate_token toy_hmac cfg0 2000 tok = Some claims
    ∧ claims !! "email" = Some (JStr "gill.dan2@gmail.com").
Proof.
  apply (demo_credentials_accepted toy_hmac toy_bcrypt cfg0 clk0
           {| db := db0; fault := None |} "gill.dan2@gmail.com" "admin123" 2000).
  - reflexivity.
  - discriminate.
  - apply elem_of_cons. right. apply elem_of_cons. by left.
  - left. reflexivity.
  - unfold hours24. simpl. lia.
Defined.


(** [forgot_password_uniform] at bob's email and at an unknown one. *)
Lemma forgot_password_uniform_witness :
  forgot_password (Valid {| forgot_email := "bob@example.com" |})
    {| db := db0; fault := None |}
  = forgot_password (Valid {| forgot_email := "nobody@example.com" |})
      {| db := db0; fault := None |}
  ∧ forgot_password (Valid {| forgot_email := "bob@example.com" |})
      {| db := db0; fault := None |}
    = ({| response_data :=
            Message "If an account with that email exists, a password reset link has been sent.";
          status := HTTP_200_OK |}, {| db := db0; fault := None |}).
Proof.
  exact (forgot_password_uniform {| db := db0; fault := None |}
           {| forgot_email := "bob@example.com" |}
           {| forgot_email := "nobody@example.com" |} db0_unique_emails).
Defined.

(** [get_current_user_round_trip] at the viewer's token. *)
Lemma get_current_user_round_trip_witness :
  get_current_user toy_hmac cfg0 2000 "2025-08-28T19:00:00.000000Z" Proceeds
    {| HTTP_AUTHORIZATION := Some {| first7 := "Bearer "; after7 := issued viewer_claims |};
       data := tt |}
  = Body {| claims_data := viewer_claims; claims_status := HTTP_200_OK |}
  ∧ get_current_user toy_hmac cfg0 90000 "2025-08-28T19:00:00.000000Z" Proceeds
      {| HTTP_AUTHORIZATION := Some {| first7 := "Bearer "; after7 := issued viewer_claims |};
         data := tt |}
    = Body {| claims_data := sample_user "2025-08-28T19:00:00.000000Z";
              claims_status := HTTP_200_OK |}
  ∧ get_current_user toy_hmac cfg0 2000 "2025-08-28T19:00:00.000000Z"
      (Refused 403 "Invalid username/password.")
      {| HTTP_AUTHORIZATION := Some {| first7 := "Bearer "; after7 := issued viewer_claims |};
         data := tt |}
    = Denial 403 "Invalid username/password.".
Proof.
  destruct (get_current_user_round_trip toy_hmac cfg0 1000 1000 2000 90000
              "2025-08-28T19:00:00.000000Z"
              (JStr "2") "gill.dan2" "gill.dan2@gmail.com" false [] ["document.view"]
              (issued viewer_claims) eq_refl ltac:(discriminate) ltac:(lia)
              ltac:(unfold hours24; lia) ltac:(unfold hours24; lia) eq_refl)
    as (Hvalid & Hexpired & Hrefused).
  split; [exact Hvalid|]. split; [exact Hexpired|]. apply Hrefused.
Defined.

(** [sample_user_is_not_authorized] at a request without header. *)
Lemma sample_user_is_not_authorized_witness :
  get_current_user toy_hmac cfg0 2000 "2025-08-28T19:00:00.000000Z" Proceeds
    anonymous_request
  = Body {| claims_data := sample_user "2025-08-28T19:00:00.000000Z";
            claims_status := HTTP_200_OK |}
  ∧ sample_user "2025-08-28T19:00:00.000000Z" !! "permissions"
    = Some (JArr [JStr "workspace.admin"])
  ∧ has_permission toy_hmac cfg0 2000 anonymous_request "workspace.admin" = Return false.
Proof.
  exact (sample_user_is_not_authorized toy_hmac cfg0 2000 "2025-08-28T19:00:00.000000Z"
           anonymous_request I).
Defined.

(** [project_views_keep_consistency] at a clone of Alpha that fails half
    way and a creation that fails at its first field. *)
Lemma project_views_keep_consistency_witness :
  db_consistent db0_after_failed_clone ∧ db_consistent db0_after_failed_create.
Proof.
  split.
  - pose proof (proj1 (project_views_keep_consistency toy_hmac cfg0 2000
                         (admin_request tt) 1 (admin_request (Valid beta_data))
                         {| db := db0; fault := Some 2%nat |} db0_consistent)) as H.
    vm_compute in H. vm_compute. exact H.
  - pose proof (proj2 (project_views_keep_consistency toy_hmac cfg0 2000
                         (admin_request tt) 1 (admin_request (Valid beta_data))
                         {| db := db0; fault := Some 1%nat |} db0_consistent)) as H.
    vm_compute in H. vm_compute. exact H.
Defined.

Lemma db5_consistent : db_consistent db5.
Proof. split; repeat constructor; vm_compute; reflexivity. Qed.

(** [clone_missing_project_is_500] at an identifier no project of the store
    has. *)
Lemma clone_missing_project_is_500_witness :
  clone_project toy_hmac cfg0 2000 (admin_request tt) 9 {| db := db0; fault := None |}
  = ({| response_data :=
          Error "Error cloning project: No Project matches the given query.";
        status := HTTP_500_INTERNAL_SERVER_ERROR |}, {| db := db0; fault := None |}).
Proof.
  apply (clone_missing_project_is_500 toy_hmac cfg0 2000 (admin_request tt) 9
           {| db := db0; fault := None |} (admin_request_permitted tt)).
  repeat constructor. discriminate.
Defined.

(** [clone_project_is_fresh] at the archived project Three. *)
Lemma clone_project_is_fresh_witness :
  get_object_or_404 db5 3 = Return (numbered_project 3 "Three" true)
  ∧ ∃ new_project new_fields w',
      clone_project toy_hmac cfg0 2000 (admin_request tt) 3 {| db := db5; fault := None |}
      = ({| response_data := ProjectData new_project new_fields;
            status := HTTP_201_CREATED |}, w')
      ∧ Project.is_active new_project = true
      ∧ Project.is_archived new_project = false
      ∧ Project.modified_by new_project = None.
Proof.
  split; [reflexivity|].
  destruct (clone_project_is_fresh toy_hmac cfg0 2000 (admin_request tt) 3
              {| db := db5; fault := None |} (numbered_project 3 "Three" true)
              (admin_request_permitted tt) db5_consistent eq_refl I)
    as (new_project & new_fields & w' & Hclone & Hactive & Harchived & Hmodifier & _).
  exists new_project, new_fields, w'. repeat split; assumption.
Defined.

(** [create_then_get_project] at the project Beta, read back by a request
    without header. *)
Lemma create_then_get_project_witness :
  ∃ project fields w',
    create_project toy_hmac cfg0 2000 (admin_request (Valid beta_data))
      {| db := db0; fault := None |}
    = ({| response_data := ProjectData project fields;
          status := HTTP_201_CREATED |}, w')
    ∧ Project.name project = "Beta"
    ∧ get_project Proceeds anonymous_request (Project.id project) w'
      = (Body {| response_data := ProjectData project fields; status := HTTP_200_OK |},
         w').
Proof.
  exact (create_then_get_project toy_hmac cfg0 2000 (admin_request (Valid beta_data))
           beta_data {| db := db0; fault := None |} anonymous_request
           (admin_request_permitted _) eq_refl db0_consistent I).
Defined.

(** [clone_then_get_project] at the project Alpha. *)
Lemma clone_then_get_project_witness :
  ∃ new_project new_fields w',
    clone_project toy_hmac cfg0 2000 (admin_request tt) 1 {| db := db0; fault := None |}
    = ({| response_data := ProjectData new_project new_fields;
          status := HTTP_201_CREATED |}, w')
    ∧ get_project Proceeds anonymous_request (Project.id new_project) w'
      = (Body {| response_data := ProjectData new_project new_fields;
                 status := HTTP_200_OK |}, w')
    ∧ get_project Proceeds anonymous_request 1 w'
      = (Body {| response_data := ProjectData alpha [alpha_filename; alpha_invoice];
                 status := HTTP_200_OK |}, w').
Proof.
  exact (clone_then_get_project toy_hmac cfg0 2000 (admin_request tt) 1
           {| db := db0; fault := None |} alpha anonymous_request
           (admin_request_permitted tt) db0_consistent eq_refl I).
Defined.

(** [get_project_is_public] at a request without header. *)
Lemma get_project_is_public_witness :
  get_project Proceeds anonymous_request 1 {| db := db0; fault := None |}
  = (Body {| response_data := ProjectData alpha [alpha_filename; alpha_invoice];
             status := HTTP_200_OK |}, {| db := db0; fault := None |})
  ∧ get_project Proceeds anonymous_request 9 {| db := db0; fault := None |}
    = (Body {| response_data := Error "Project not found";
               status := HTTP_404_NOT_FOUND |}, {| db := db0; fault := None |})
  ∧ get_project (Refused 403 "Invalid username/password.") anonymous_request 1
      {| db := db0; fault := None |}
    = (Denial 403 "Invalid username/password.", {| db := db0; fault := None |}).
Proof.
  destruct (get_project_is_public anonymous_request {| db := db0; fault := None |}
              db0_unique_projects) as (Hfound & Hmissing & Hrefused).
  split; [|split].
  - apply (Hfound alpha). apply list_elem_of_singleton. reflexivity.
  - apply Hmissing. intros Hin. apply list_elem_of_singleton in Hin. discriminate Hin.
  - apply Hrefused.
Defined.

(** [get_projects_pages_partition] on the five projects, two a page, for a
    header that holds no token. *)
Lemma get_projects_pages_partition_witness :
  total_pages (get_projects garbage_request (projects_query 1 2 None)
                 {| db := db5; fault := None |}) = 2
  ∧ concat ((λ i, page_data (get_projects garbage_request
                               (projects_query (Z.of_nat i) 2 None)
                               {| db := db5; fault := None |}))
              <$> [1; 2]%nat)
    = [listed 1 "One"; listed 2 "Two"; listed 4 "Four"; listed 5 "Five"].
Proof.
  split; [vm_compute; reflexivity|].
  pose proof (proj2 (get_projects_pages_partition garbage_request _ 2 None
                       {| db := db5; fault := None |} eq_refl eq_refl eq_refl
                       (conj eq_refl eq_refl))) as H.
  exact H.
Defined.

(** [get_projects_out_of_range] at page 7 of 2. *)
Lemma get_projects_out_of_range_witness :
  get_projects garbage_request (projects_query 7 2 None) {| db := db5; fault := None |}
  = get_projects garbage_request (projects_query 2 2 None) {| db := db5; fault := None |}.
Proof.
  exact (proj1 (get_projects_out_of_range garbage_request _ 2 None
                  {| db := db5; fault := None |} 7 eq_refl eq_refl eq_refl
                  (conj eq_refl eq_refl)) eq_refl).
Defined.

(** [get_projects_huge_page_size] on the five projects, at a page size of
    [2 ^ 1128]. *)
Lemma get_projects_huge_page_size_witness :
  get_projects garbage_request (projects_query 1 (2 ^ 1128) None)
    {| db := db5; fault := None |}
  = sample_page.
Proof.
  apply (get_projects_huge_page_size garbage_request _ 1 (2 ^ 1128) None
           {| db := db5; fault := None |} eq_refl eq_refl eq_refl).
  lia.
Defined.

(** [get_projects_hides_archived] on the five projects. *)
Lemma get_projects_hides_archived_witness :
  Forall not_archived_item
    (page_data (get_projects garbage_request (projects_query 2 2 None)
                  {| db := db5; fault := None |})).
Proof.
  exact (get_projects_hides_archived garbage_request (projects_query 2 2 None)
           {| db := db5; fault := None |} eq_refl).
Defined.

(** [get_projects_falls_back] at a page size of zero. *)
Lemma get_projects_falls_back_witness :
  get_projects garbage_request (projects_query 1 0 None) {| db := db5; fault := None |}
  = sample_page.
Proof.
  apply (get_projects_falls_back garbage_request _ (projects_query 1 0 None)
           {| db := db5; fault := None |} eq_refl eq_refl).
  right. right. exists 0. split; [reflexivity|lia].
Defined.

(** [get_projects_does_not_validate] at a header that holds no token. *)
Lemma get_projects_does_not_validate_witness :
  has_permission toy_hmac cfg0 2000 garbage_request "document.view" = Return false
  ∧ page_data (get_projects garbage_request
                 {| query_page := NoParam; query_pageSize := NoParam;
                    query_includeArchived := None |} {| db := db5; fault := None |})
    = [listed 1 "One"; listed 2 "Two"; listed 4 "Four"; listed 5 "Five"].
Proof.
  exact (get_projects_does_not_validate toy_hmac cfg0 2000 garbage_request _
           {| db := db5; fault := None |} "document.view" eq_refl eq_refl eq_refl).
Defined.
